(** * PulseAI: the heuristic protocol classifier

    A shallow embedding of the CSV heuristics of the PulseAI server
    ([detectCSVFormat], [analyzeChannels], [detectProtocol] and
    [getEnhancedMockAnalysis]) as they stand in [src/public/script.js]
    (lines 896-1030) and in [src/functions/server.js] (lines 134-199),
    followed by the properties of the specification that concern them.
    Beside them stand the upload handlers of the three servers with their
    fallback reports, and the authentication of [src/functions/server.js],
    with properties read off the code.

    Modelling conventions.
    - A JavaScript string is a [string]: the bytes of its UTF-8 text.
      [split], [join], [includes] and the removal of quotes work on ASCII
      characters, whose bytes stand for nothing else in UTF-8.  [trim]
      removes every white space character of ECMAScript, those of two and
      three bytes among them.  [toLowerCase] replaces the capitals A to Z
      and leaves every other byte: the capital letters outside ASCII are
      not modelled.  The code reads a lower-cased header only to look for
      ASCII words in it, and two characters outside ASCII become ASCII
      letters in lower case (U+212A, the Kelvin sign, and U+0130, the
      dotted capital I); on a header without them the tests of the model
      are those of the code.
    - An array is a [list]; an index access [a[i]] is [nth_error a i], with
      [None] for [undefined]; [v?.m()] maps over the option and [v || d]
      is [orElse v d].
    - Array lengths and indices are [nat]; the one subtraction that can go
      below zero ([lines.length - 1]) is computed in [Z].
    - The length of a string is the number of its UTF-16 code units,
      counted on the bytes ([stringLength]).
    - What the code gets from outside the repository (the answer of the
      DeepSeek service, [bcrypt], [jwt], the clock) is an argument of the
      function that uses it. *)

From Stdlib Require Import String Ascii List Bool Arith ZArith Lia.
From Stdlib Require Import DecimalString Permutation.
Import ListNotations.
Open Scope string_scope.
Open Scope list_scope.
Open Scope nat_scope.

(** ** The JavaScript primitives the code uses *)

Module Js.

(** The white space [String.prototype.trim] removes: the WhiteSpace and
    LineTerminator characters of ECMAScript, each as the bytes of its UTF-8
    encoding.  In one byte: TAB, LF, VT, FF, CR and SPACE. *)
Definition isWhiteSpace1 (a : ascii) : bool :=
  let x := nat_of_ascii a in
  ((9 <=? x) && (x <=? 13)) || (x =? 32).

(** In two bytes: U+00A0 (C2 A0). *)
Definition isWhiteSpace2 (a b : ascii) : bool :=
  (nat_of_ascii a =? 194) && (nat_of_ascii b =? 160).

(** In three bytes: U+1680 (E1 9A 80), U+2000 to U+200A (E2 80 80 to
    E2 80 8A), U+2028 and U+2029 (E2 80 A8, E2 80 A9), U+202F (E2 80 AF),
    U+205F (E2 81 9F), U+3000 (E3 80 80) and U+FEFF (EF BB BF). *)
Definition isWhiteSpace3 (a b c : ascii) : bool :=
  let x := nat_of_ascii a in
  let y := nat_of_ascii b in
  let z := nat_of_ascii c in
  ((x =? 225) && (y =? 154) && (z =? 128))
  || ((x =? 226) && (y =? 128)
      && (((128 <=? z) && (z <=? 138)) || (z =? 168) || (z =? 169) || (z =? 175)))
  || ((x =? 226) && (y =? 129) && (z =? 159))
  || ((x =? 227) && (y =? 128) && (z =? 128))
  || ((x =? 239) && (y =? 187) && (z =? 191)).

(** What follows the white space character [s] begins with, when it begins
    with one. *)
Definition afterWhiteSpace (s : string) : option string :=
  match s with
  | EmptyString => None
  | String a s1 =>
      if isWhiteSpace1 a then Some s1
      else
        match s1 with
        | EmptyString => None
        | String b s2 =>
            if isWhiteSpace2 a b then Some s2
            else
              match s2 with
              | EmptyString => None
              | String c s3 => if isWhiteSpace3 a b c then Some s3 else None
              end
        end
  end.

(** [s.trimStart()]: the white space characters [s] begins with are left
    out, one after the other. *)
Fixpoint trimStart (s : string) : string :=
  match s with
  | EmptyString => EmptyString
  | String a s1 =>
      if isWhiteSpace1 a then trimStart s1
      else
        match s1 with
        | EmptyString => s
        | String b s2 =>
            if isWhiteSpace2 a b then trimStart s2
            else
              match s2 with
              | EmptyString => s
              | String c s3 => if isWhiteSpace3 a b c then trimStart s3 else s
              end
        end
  end.

(** [s] is made of white space characters alone. *)
Fixpoint allWhiteSpace (s : string) : bool :=
  match s with
  | EmptyString => true
  | String a s1 =>
      if isWhiteSpace1 a then allWhiteSpace s1
      else
        match s1 with
        | EmptyString => false
        | String b s2 =>
            if isWhiteSpace2 a b then allWhiteSpace s2
            else
              match s2 with
              | EmptyString => false
              | String c s3 => isWhiteSpace3 a b c && allWhiteSpace s3
              end
        end
  end.

(** [s.trimEnd()]: the text up to the white space characters [s] ends
    with. *)
Fixpoint trimEnd (s : string) : string :=
  match s with
  | EmptyString => EmptyString
  | String c s' => if allWhiteSpace s then EmptyString else String c (trimEnd s')
  end.

(** [s.trim()] *)
Definition trim (s : string) : string := trimEnd (trimStart s).

(** [s.length]: the UTF-16 code units of [s], counted on its UTF-8 bytes.
    A byte below 80 or a leading byte C0 to EF begins a character of one
    unit, a leading byte from F0 on one of two units, and a continuation
    byte 80 to BF adds nothing. *)
Definition unitsOf (a : ascii) : nat :=
  let x := nat_of_ascii a in
  if x <? 128 then 1
  else if x <? 192 then 0
  else if x <? 240 then 1
  else 2.

Fixpoint stringLength (s : string) : nat :=
  match s with
  | EmptyString => 0
  | String a s' => unitsOf a + stringLength s'
  end.

Definition toLowerChar (c : ascii) : ascii :=
  let n := nat_of_ascii c in
  if (65 <=? n) && (n <=? 90) then ascii_of_nat (n + 32) else c.

(** [s.toLowerCase()] *)
Fixpoint toLowerCase (s : string) : string :=
  match s with
  | EmptyString => EmptyString
  | String c s' => String (toLowerChar c) (toLowerCase s')
  end.

Fixpoint startsWith (s p : string) : bool :=
  match p, s with
  | EmptyString, _ => true
  | String _ _, EmptyString => false
  | String a p', String b s' => Ascii.eqb a b && startsWith s' p'
  end.

(** [s.includes(sub)] *)
Fixpoint includes (s sub : string) : bool :=
  startsWith s sub
  || match s with
     | EmptyString => false
     | String _ s' => includes s' sub
     end.

(** [s.split(sep)] for a separator of one character: never the empty array,
    and [''.split(sep)] is [['']]. *)
Fixpoint split (sep : ascii) (s : string) : list string :=
  match s with
  | EmptyString => [EmptyString]
  | String c s' =>
      if Ascii.eqb c sep then EmptyString :: split sep s'
      else match split sep s' with
           | [] => [String c EmptyString]
           | field :: fields => String c field :: fields
           end
  end.

(** [a.join(sep)] on an array of strings *)
Fixpoint join (sep : string) (a : list string) : string :=
  match a with
  | [] => EmptyString
  | [x] => x
  | x :: rest => (x ++ sep ++ join sep rest)%string
  end.

Definition isQuote (c : ascii) : bool :=
  let n := nat_of_ascii c in (n =? 34) || (n =? 39).

(** [s.replace(re, '')] where the global pattern [re] matches one double
    quote (code 34) or one single quote (code 39). *)
Fixpoint removeQuotes (s : string) : string :=
  match s with
  | EmptyString => EmptyString
  | String c s' => if isQuote c then removeQuotes s' else String c (removeQuotes s')
  end.

(** Truthiness of a string: every string but the empty one. *)
Definition truthy (s : string) : bool :=
  match s with EmptyString => false | String _ _ => true end.

(** [v || d] where [v] is a string or [undefined] *)
Definition orElse (v : option string) (d : string) : string :=
  match v with
  | Some s => if truthy s then s else d
  | None => d
  end.

(** [val !== w] where [w] is a string or [undefined] *)
Definition strictNeq (val : string) (w : option string) : bool :=
  match w with
  | Some s => negb (String.eqb val s)
  | None => true
  end.

(** A number in a template literal: its decimal digits. *)
Definition numToString (n : nat) : string :=
  NilZero.string_of_uint (Nat.to_uint n).

Definition intToString (z : Z) : string :=
  NilZero.string_of_int (Z.to_int z).

(** [a.slice(from, to)] for indices that are not negative *)
Definition slice {A} (from to : nat) (a : list A) : list A :=
  skipn from (firstn to a).

Fixpoint mapi_from {A B} (i : nat) (f : A -> nat -> B) (a : list A) : list B :=
  match a with
  | [] => []
  | x :: rest => f x i :: mapi_from (S i) f rest
  end.

(** [a.map((x, i) => f)] *)
Definition mapi {A B} (f : A -> nat -> B) (a : list A) : list B :=
  mapi_from 0 f a.

Fixpoint filteri_from {A} (i : nat) (p : A -> nat -> bool) (a : list A) : list A :=
  match a with
  | [] => []
  | x :: rest =>
      if p x i then x :: filteri_from (S i) p rest else filteri_from (S i) p rest
  end.

(** [a.filter((x, i) => p)] *)
Definition filteri {A} (p : A -> nat -> bool) (a : list A) : list A :=
  filteri_from 0 p a.

Fixpoint forEach_from {A St} (i : nat) (body : A -> nat -> St -> St) (a : list A) (s : St) : St :=
  match a with
  | [] => s
  | x :: rest => forEach_from (S i) body rest (body x i s)
  end.

(** [a.forEach((x, i) => body)], the variables the body updates being
    threaded through as the state [s]. *)
Definition forEach {A St} (body : A -> nat -> St -> St) (a : list A) (s : St) : St :=
  forEach_from 0 body a s.

Fixpoint has (x : string) (seen : list string) : bool :=
  match seen with
  | [] => false
  | y :: rest => String.eqb x y || has x rest
  end.

Fixpoint setAddAll (seen : list string) (a : list string) : list string :=
  match a with
  | [] => seen
  | x :: rest => setAddAll (if has x seen then seen else seen ++ [x]) rest
  end.

(** [[...new Set(a)]]: the values of [a] in the order of their first
    occurrence. *)
Definition newSet (a : list string) : list string := setAddAll [] a.

End Js.

Import Js.

(** ** The data model (the object literals of the source) *)

(** The object pushed by [analyzeChannels]. *)
Record channel := mkChannel {
  name : string;
  index : nat;
  uniqueValues : nat;
  transitions : nat;
  isDigital : bool;
  isClock : bool;
  isData : bool
}.

(** The object returned by [detectCSVFormat]: [{ format, type }]. *)
Record formatGuess := mkFormat {
  format : string;
  type : string
}.

(** The object returned by [detectProtocol]: [{ protocol, confidence, pins }]. *)
Record protocolGuess := mkProtocol {
  protocol : string;
  confidence : string;
  pins : list string
}.

Definition LF : ascii := ascii_of_nat 10.
Definition comma : ascii := ascii_of_nat 44.

(** ** [src/public/script.js], lines 896-1030 *)

Module Script.

(** [detectCSVFormat], lines 896-912. *)
Definition detectCSVFormat (headers : list string) : formatGuess :=
  let headerStr := toLowerCase (join "," headers) in
  if includes headerStr "time" && includes headerStr "channel" then
    {| format := "Saleae Logic"; type := "standard" |}
  else if includes headerStr "sample" || includes headerStr "logic" then
    {| format := "PulseView/Sigrok"; type := "open_source" |}
  else if includes headerStr "timestamp" || includes headerStr "state" then
    {| format := "Digilent/WaveForms"; type := "digilent" |}
  else if includes headerStr "tick" || includes headerStr "clk" then
    {| format := "Generic/Raw"; type := "raw" |}
  else
    {| format := "Unknown"; type := "unknown" |}.

(** The guard of line 918: the column is the time column and is skipped. *)
Definition isTimeColumn (header : string) (index : nat) : bool :=
  (index =? 0)
  && (includes (toLowerCase header) "time" || includes (toLowerCase header) "sample").

(** The callback of line 923: the field of column [index] in [line]. *)
Definition field (index : nat) (line : string) : string :=
  let parts := split comma line in
  orElse (option_map trim (nth_error parts index)) "0".

(** [channelData], lines 923-926. *)
Definition channelData (dataLines : list string) (index : nat) : list string :=
  map (field index) (slice 1 (Nat.min 20 (length dataLines)) dataLines).

(** [uniqueValues.length], line 929. *)
Definition countUnique (data : list string) : nat :=
  length (newSet data).

(** [transitions], line 930. *)
Definition countTransitions (data : list string) : nat :=
  length (filteri (fun val i => (0 <? i) && strictNeq val (nth_error data (i - 1))) data).

(** The object literal of lines 932-940. *)
Definition profile (dataLines : list string) (header : string) (index : nat) : channel :=
  let channelName := trim (removeQuotes header) in
  let data := channelData dataLines index in
  let uniqueValues := countUnique data in
  let transitions := countTransitions data in
  {| name := channelName;
     index := index;
     uniqueValues := uniqueValues;
     transitions := transitions;
     isDigital := uniqueValues <=? 4;
     isClock := 5 <? transitions;
     isData := (0 <? transitions) && (transitions <=? 10) |}.

(** [analyzeChannels], lines 914-944: the array [channels] is the state of
    the [forEach] loop, a skipped column leaves it as it is and every other
    column pushes its profile. *)
Definition analyzeChannels (headers dataLines : list string) : list channel :=
  forEach
    (fun header index channels =>
       if isTimeColumn header index then channels
       else channels ++ [profile dataLines header index])
    headers [].

(** The blocks of [detectProtocol] that may return: [Some r] when the block
    returns [r], [None] when control falls through to the next statement. *)

(** Lines 949-956. *)
Definition ruleI2C (digitalChannels : list channel) : option protocolGuess :=
  if length digitalChannels =? 2 then
    let hasClock := existsb isClock digitalChannels in
    let hasData := existsb (fun c => isData c && negb (isClock c)) digitalChannels in
    if hasClock && hasData then
      Some {| protocol := "I2C"; confidence := "High";
              pins := ["SDA (Data)"; "SCL (Clock)"] |}
    else None
  else None.

(** Lines 958-965. *)
Definition ruleSPI (digitalChannels : list channel) : option protocolGuess :=
  if (3 <=? length digitalChannels) && (length digitalChannels <=? 5) then
    let clockLike := length (filter isClock digitalChannels) in
    let dataLike := length (filter isData digitalChannels) in
    if (1 <=? clockLike) && (2 <=? dataLike) then
      Some {| protocol := "SPI"; confidence := "High";
              pins := ["MOSI"; "MISO"; "SCK"; "CS/SS"] |}
    else None
  else None.

(** Lines 967-975. *)
Definition ruleRest (digitalChannels : list channel) : protocolGuess :=
  if (length digitalChannels =? 1) || (length digitalChannels =? 2) then
    {| protocol := "UART/Serial"; confidence := "Medium"; pins := ["TX"; "RX"] |}
  else if 8 <? length digitalChannels then
    {| protocol := "Parallel/Unknown"; confidence := "Low";
       pins := mapi (fun c i => ("Data_" ++ numToString i)%string) digitalChannels |}
  else
    {| protocol := "Unknown"; confidence := "Low";
       pins := mapi (fun c i => ("Channel_" ++ numToString i)%string) digitalChannels |}.

(** [detectProtocol], lines 946-976. *)
Definition detectProtocol (channels : list channel) : protocolGuess :=
  let digitalChannels := filter isDigital channels in
  match ruleI2C digitalChannels with
  | Some guess => guess
  | None =>
      match ruleSPI digitalChannels with
      | Some guess => guess
      | None => ruleRest digitalChannels
      end
  end.

(** The line of one channel under PIN MAPPING ANALYSIS, line 1010. *)
Definition pinLine (guess : protocolGuess) (ch : channel) (i : nat) : string :=
  ("• " ++ name ch ++ ": " ++ orElse (nth_error (pins guess) i) "Data Line"
   ++ " " ++ (if isClock ch then "(Clock-like)" else EmptyString)
   ++ " " ++ (if isData ch then "(Data)" else EmptyString))%string.

(** The line of one channel under SIGNAL CHARACTERISTICS, line 1013. *)
Definition signalLine (ch : channel) : string :=
  ("• " ++ name ch ++ ": " ++ numToString (transitions ch) ++ " transitions, "
   ++ numToString (uniqueValues ch) ++ " unique states"
   ++ (if isDigital ch then " (Digital)" else " (Analog/Mixed)"))%string.

(** The interpolation of line 1010. *)
Definition pinMapping (channels : list channel) (guess : protocolGuess) : string :=
  join (String LF EmptyString) (mapi (pinLine guess) channels).

(** The interpolation of line 1013. *)
Definition signalCharacteristics (channels : list channel) : string :=
  join (String LF EmptyString) (map signalLine channels).

(** [lines], line 989. *)
Definition nonBlankLines (csvContent : string) : list string :=
  filter (fun line => truthy (trim line)) (split LF csvContent).

(** [headers], line 990. *)
Definition headersOf (lines : list string) : list string :=
  match nth_error lines 0 with
  | Some line => map trim (split comma line)
  | None => []
  end.

(** The template literal of lines 995-1029, one list element per line of
    the literal up to PIN MAPPING ANALYSIS. *)
Definition reportHead (fmt : formatGuess) (lines headers : list string)
    (channels : list channel) (guess : protocolGuess) : list string :=
  [ "PULSEAI DETAILED ANALYSIS REPORT";
    "==================================================";
    EmptyString;
    "FILE METADATA:";
    "• Analyzer Format: " ++ format fmt;
    "• Total Samples: " ++ intToString (Z.of_nat (length lines) - 1)%Z;
    "• Data Channels: " ++ numToString (length channels);
    "• Time Column: " ++ orElse (nth_error headers 0) "None";
    EmptyString;
    "DETECTED PROTOCOL:";
    "• Protocol: " ++ protocol guess;
    "• Confidence: " ++ confidence guess;
    "• Type: " ++ (if String.eqb (type fmt) "standard"
                   then "Standard Logic Analyzer" else "Custom Format");
    EmptyString;
    "PIN MAPPING ANALYSIS:" ]%string.

(** The lines of the literal after the SIGNAL CHARACTERISTICS interpolation. *)
Definition reportTail (channels : list channel) (guess : protocolGuess) : list string :=
  [ EmptyString;
    "ESTIMATED DEVICES:";
    "• Primary: " ++ (if String.eqb (protocol guess) "I2C"
                      then "I2C Master (Microcontroller)"
                      else if String.eqb (protocol guess) "SPI"
                           then "SPI Master" else "Unknown Master");
    "• Secondary: " ++ (if (1 <? length channels)%nat
                        then "Connected peripheral(s) detected"
                        else "No secondary device detected");
    EmptyString;
    "TIMING ANALYSIS:";
    "• Sample Rate: Estimated from time column";
    "• Bus Speed: " ++ (if String.eqb (protocol guess) "I2C"
                        then "Standard (100kHz) or Fast (400kHz)"
                        else if String.eqb (protocol guess) "SPI"
                             then "Variable, check clock frequency" else "Unknown");
    EmptyString;
    "RECOMMENDATIONS:";
    "1. Verify protocol settings match device datasheets";
    "2. Check signal integrity and voltage levels";
    "3. Confirm device addresses for I2C devices";
    "4. Review timing constraints for reliable communication";
    EmptyString;
    "NOTE: This analysis is based on signal patterns. For device-specific identification, additional signature analysis may be required." ]%string.

(** The report rendered from the outputs of the three stages. *)
Definition render (fmt : formatGuess) (lines headers : list string)
    (channels : list channel) (guess : protocolGuess) : string :=
  join (String LF EmptyString)
    (reportHead fmt lines headers channels guess
     ++ [pinMapping channels guess]
     ++ [EmptyString; "SIGNAL CHARACTERISTICS:"; signalCharacteristics channels]
     ++ reportTail channels guess).

(** [getEnhancedMockAnalysis], lines 988-1030. *)
Definition getEnhancedMockAnalysis (csvContent : string) : string :=
  let lines := nonBlankLines csvContent in
  let headers := headersOf lines in
  let fmt := detectCSVFormat headers in
  let channels := analyzeChannels headers lines in
  let guess := detectProtocol channels in
  render fmt lines headers channels guess.

End Script.

(** ** [src/functions/server.js], lines 134-199 *)

Module FunctionsServer.

(** [detectCSVFormat], lines 134-144. *)
Definition detectCSVFormat (headers : list string) : formatGuess :=
  let headerStr := toLowerCase (join "," headers) in
  if includes headerStr "time" && includes headerStr "channel" then
    {| format := "Saleae Logic"; type := "standard" |}
  else if includes headerStr "sample" || includes headerStr "logic" then
    {| format := "PulseView/Sigrok"; type := "open_source" |}
  else
    {| format := "Unknown"; type := "unknown" |}.

(** [analyzeChannels], lines 146-175. *)
Definition analyzeChannels (headers dataLines : list string) : list channel :=
  forEach
    (fun header index channels =>
       if (index =? 0)
          && (includes (toLowerCase header) "time"
              || includes (toLowerCase header) "sample")
       then channels
       else
         let channelName := trim (removeQuotes header) in
         let channelData :=
           map (fun line =>
                  let parts := split comma line in
                  orElse (option_map trim (nth_error parts index)) "0")
               (slice 1 (Nat.min 20 (length dataLines)) dataLines) in
         let uniqueValues := newSet channelData in
         let transitions :=
           length (filteri (fun val i =>
                              (0 <? i) && strictNeq val (nth_error channelData (i - 1)))
                           channelData) in
         channels ++ [ {| name := channelName;
                          index := index;
                          uniqueValues := length uniqueValues;
                          transitions := transitions;
                          isDigital := length uniqueValues <=? 4;
                          isClock := 5 <? transitions;
                          isData := (0 <? transitions) && (transitions <=? 10) |} ])
    headers [].

(** [detectProtocol], lines 177-199: after the two rules every capture is
    reported as UART/Serial. *)
Definition detectProtocol (channels : list channel) : protocolGuess :=
  let digitalChannels := filter isDigital channels in
  let fallThrough :=
    {| protocol := "UART/Serial"; confidence := "Medium"; pins := ["TX"; "RX"] |} in
  let afterI2C :=
    if (3 <=? length digitalChannels) && (length digitalChannels <=? 5) then
      let clockLike := length (filter isClock digitalChannels) in
      let dataLike := length (filter isData digitalChannels) in
      if (1 <=? clockLike) && (2 <=? dataLike) then
        {| protocol := "SPI"; confidence := "High"; pins := ["MOSI"; "MISO"; "SCK"; "CS/SS"] |}
      else fallThrough
    else fallThrough in
  if length digitalChannels =? 2 then
    let hasClock := existsb isClock digitalChannels in
    let hasData := existsb (fun c => isData c && negb (isClock c)) digitalChannels in
    if hasClock && hasData then
      {| protocol := "I2C"; confidence := "High"; pins := ["SDA (Data)"; "SCL (Clock)"] |}
    else afterI2C
  else afterI2C.

End FunctionsServer.

Import Script.

(** ** The upload handlers and the fallback reports *)

(** How a call that may throw ends. *)
Inductive completion (A : Type) : Type :=
| Returns (value : A)
| Throws (message : string).

Arguments Returns {A} value.
Arguments Throws {A} message.

(** How the [try] block around [axios.post] ends: with the content of the
    first choice of the response, or with an error object of which the code
    reads [code] and [message].  The service behind it is no part of the
    repository; a handler receives it as a function of the prompt and of the
    timeout. *)
Inductive apiOutcome : Type :=
| Content (content : string)
| Failed (code : option string) (message : string).

(** [!v] for an environment variable or a field of a request: unset, or the
    empty string. *)
Definition falsy (v : option string) : bool :=
  match v with
  | Some s => negb (truthy s)
  | None => true
  end.

(** A number that is no index in a template literal: a timeout in
    milliseconds, a size in bytes. *)
Definition sizeToString (n : N) : string :=
  NilZero.string_of_uint (N.to_uint n).

(** [error.code === 'ECONNABORTED'] *)
Definition isAborted (code : option string) : bool :=
  match code with
  | Some c => String.eqb c "ECONNABORTED"
  | None => false
  end.

(** [callDeepSeekAPI], [src/server.js] lines 146-177 and, word for word,
    [src/public/script.js] lines 861-893.  The two files differ in the
    [getEnhancedMockAnalysis] that is in scope, called here without an
    argument, so with the default parameter, the empty string. *)
Definition callDeepSeekAPI (getEnhancedMockAnalysis : string -> string)
    (DEEPSEEK_API_KEY : option string) (post : string -> N -> apiOutcome)
    (prompt : string) (timeout : N) : completion string :=
  if falsy DEEPSEEK_API_KEY then Returns (getEnhancedMockAnalysis EmptyString)
  else
    match post prompt timeout with
    | Content content => Returns content
    | Failed code message =>
        if isAborted code then
          Throws ("API timeout (" ++ sizeToString timeout
                  ++ "ms) - Render free tier limitation")
        else Throws ("DeepSeek API: " ++ message)
    end.

(** ** [src/server.js] *)

Module Server.

(** [sampleLines], line 87. *)
Definition sampleLines (lines : list string) : nat :=
  Nat.min 50 (length lines).

(** [csvSample], lines 84-88. *)
Definition csvSample (csvContent : string) : string :=
  let lines := split LF csvContent in
  join (String LF EmptyString) (slice 0 (sampleLines lines) lines).

(** [analysisPrompt], lines 93-104. *)
Definition analysisPrompt (csvContent : string) : string :=
  join (String LF EmptyString)
    [ "Analyze this logic analyzer CSV data briefly:";
      EmptyString;
      "PROTOCOL: ";
      "DEVICES: ";
      "PINS: ";
      "TIMING: ";
      "NOTES: ";
      EmptyString;
      "Data (" ++ numToString (sampleLines (split LF csvContent)) ++ " lines):";
      csvSample csvContent;
      EmptyString;
      "Provide concise analysis in bullet points." ]%string.

(** [channelCount], line 183: [lines[0]?.split(',').length - 1 || 0]. *)
Definition channelCount (lines : list string) : nat :=
  match nth_error lines 0 with
  | Some line => length (split comma line) - 1
  | None => 0
  end.

(** [hasTimeColumn], line 184. *)
Definition hasTimeColumn (lines : list string) : bool :=
  match nth_error lines 0 with
  | Some line => includes line "Time" || includes line "time"
  | None => false
  end.

(** The interpolation of line 203: [Array.from({length: channelCount}, ...)]. *)
Definition pinMapping (channelCount : nat) : list string :=
  map (fun i => ("• Channel " ++ numToString i ++ ": Data line "
                 ++ numToString (i + 1))%string)
      (seq 0 channelCount).

(** [getEnhancedMockAnalysis], lines 181-214. *)
Definition getEnhancedMockAnalysis (csvContent : string) : string :=
  let lines := split LF csvContent in
  let channelCount := channelCount lines in
  let hasTimeColumn := hasTimeColumn lines in
  join (String LF EmptyString)
    [ "PULSEAI ANALYSIS REPORT";
      "==================================================";
      EmptyString;
      "FILE ANALYSIS:";
      "• Total lines: " ++ numToString (length lines);
      "• Data channels: " ++ numToString channelCount;
      "• Time data: " ++ (if hasTimeColumn then "Yes" else "No");
      EmptyString;
      "PROTOCOL ANALYSIS:";
      "• Most Likely: I2C or SPI communication";
      "• Channel usage: " ++ numToString channelCount ++ " active data lines";
      "• Pattern: Digital serial communication detected";
      EmptyString;
      "ESTIMATED DEVICES:";
      "• Primary: Microcontroller/master device";
      "• Secondary: Sensor or peripheral device(s)";
      EmptyString;
      "PIN MAPPING (ESTIMATED):";
      join (String LF EmptyString) (pinMapping channelCount);
      EmptyString;
      "RECOMMENDATIONS:";
      "1. Check signal timing and voltage levels";
      "2. Verify protocol settings match device requirements";
      "3. Use smaller CSV files for faster AI analysis";
      EmptyString;
      "NOTE: This is an enhanced analysis. For full AI analysis, the request timed out due to Render's 30-second limit on free tier. Consider:";
      "- Using smaller CSV files (< 1000 lines)";
      "- Upgrading to Render's paid plan for longer timeouts";
      "- Using the /api/quick-analyze endpoint for faster results" ]%string.

(** The [try]/[catch] of lines 110-118 in the handler of [/api/analyze]:
    the pair of [analysisResult] and [apiUsed]. *)
Definition analysisOf (DEEPSEEK_API_KEY : option string)
    (post : string -> N -> apiOutcome) (csvContent : string) : string * string :=
  match callDeepSeekAPI getEnhancedMockAnalysis DEEPSEEK_API_KEY post
          (analysisPrompt csvContent) 20000%N with
  | Returns analysisResult => (analysisResult, "deepseek")
  | Throws _ => (getEnhancedMockAnalysis csvContent, "mock")
  end.

(** [csvSample] of the handler of [/api/quick-analyze], line 228. *)
Definition quickSample (csvContent : string) : string :=
  join (String LF EmptyString) (slice 0 20 (split LF csvContent)).

(** [quickPrompt], lines 230-235. *)
Definition quickPrompt (csvContent : string) : string :=
  join (String LF EmptyString)
    [ "Quick analysis of logic data (20 lines):";
      "    ";
      "Data:";
      quickSample csvContent;
      EmptyString;
      "Respond in 3-4 bullet points about protocol and devices." ].

(** [analysisResult] of the handler of [/api/quick-analyze], lines 237-246. *)
Definition quickAnalysisOf (DEEPSEEK_API_KEY : option string)
    (post : string -> N -> apiOutcome) (csvContent originalname : string)
    (size : N) : string :=
  match callDeepSeekAPI getEnhancedMockAnalysis DEEPSEEK_API_KEY post
          (quickPrompt csvContent) 15000%N with
  | Returns analysisResult => analysisResult
  | Throws _ =>
      join (String LF EmptyString)
        [ "QUICK ANALYSIS (Fallback):";
          "• Serial communication detected";
          "• Multiple devices likely present  ";
          "• Analyze timing for protocol identification";
          "• File: " ++ originalname ++ ", " ++ sizeToString size ++ " bytes" ]%string
  end.

End Server.

(** ** [src/public/script.js], lines 779-893: the same handler beside the
    heuristic report *)

Module ScriptUpload.

(** The [try]/[catch] of lines 825-833. *)
Definition analysisOf (DEEPSEEK_API_KEY : option string)
    (post : string -> N -> apiOutcome) (csvContent : string) : string * string :=
  match callDeepSeekAPI Script.getEnhancedMockAnalysis DEEPSEEK_API_KEY post
          (Server.analysisPrompt csvContent) 20000%N with
  | Returns analysisResult => (analysisResult, "deepseek")
  | Throws _ => (Script.getEnhancedMockAnalysis csvContent, "mock")
  end.

End ScriptUpload.

(** ** [src/functions/server.js]: the upload handler and its report *)

Module FunctionsUpload.

(** [analysisPrompt], lines 75-80. *)
Definition analysisPrompt (csvContent : string) : string :=
  join (String LF EmptyString)
    [ "Analyze this logic analyzer CSV data briefly:";
      EmptyString;
      "Data (" ++ numToString (Server.sampleLines (split LF csvContent)) ++ " lines):";
      Server.csvSample csvContent;
      EmptyString;
      "Provide concise analysis: Protocol, Devices, Pins, Timing in bullet points." ]%string.

(** The line of one channel under SIGNAL CHARACTERISTICS, line 224. *)
Definition signalLine (ch : channel) : string :=
  ("• " ++ name ch ++ ": " ++ numToString (transitions ch) ++ " transitions, "
   ++ numToString (uniqueValues ch) ++ " unique states")%string.

(** [getEnhancedMockAnalysis], lines 201-234; the line of a channel under
    PIN MAPPING ANALYSIS is that of [script.js]. *)
Definition getEnhancedMockAnalysis (csvContent : string) : string :=
  let lines := filter (fun line => truthy (trim line)) (split LF csvContent) in
  let headers :=
    match nth_error lines 0 with
    | Some line => map trim (split comma line)
    | None => []
    end in
  let fmt := FunctionsServer.detectCSVFormat headers in
  let channels := FunctionsServer.analyzeChannels headers lines in
  let guess := FunctionsServer.detectProtocol channels in
  join (String LF EmptyString)
    [ "PULSEAI DETAILED ANALYSIS REPORT";
      "==================================================";
      EmptyString;
      "FILE METADATA:";
      "• Analyzer Format: " ++ format fmt;
      "• Total Samples: " ++ intToString (Z.of_nat (length lines) - 1)%Z;
      "• Data Channels: " ++ numToString (length channels);
      EmptyString;
      "DETECTED PROTOCOL:";
      "• Protocol: " ++ protocol guess;
      "• Confidence: " ++ confidence guess;
      EmptyString;
      "PIN MAPPING ANALYSIS:";
      join (String LF EmptyString) (mapi (Script.pinLine guess) channels);
      EmptyString;
      "SIGNAL CHARACTERISTICS:";
      join (String LF EmptyString) (map signalLine channels);
      EmptyString;
      "ESTIMATED DEVICES:";
      "• Primary: " ++ (if String.eqb (protocol guess) "I2C"
                        then "I2C Master (Microcontroller)"
                        else if String.eqb (protocol guess) "SPI"
                             then "SPI Master" else "Unknown Master");
      "• Secondary: " ++ (if (1 <? length channels)%nat
                          then "Connected peripheral(s) detected"
                          else "No secondary device detected");
      EmptyString;
      "RECOMMENDATIONS:";
      "1. Verify protocol settings match device datasheets";
      "2. Check signal integrity and voltage levels";
      "3. Review timing constraints for reliable communication" ]%string.

(** The [try] block of lines 84-103. *)
Definition callApi (DEEPSEEK_API_KEY : option string)
    (post : string -> N -> apiOutcome) (prompt : string) : completion string :=
  if negb (falsy DEEPSEEK_API_KEY) then
    match post prompt 20000%N with
    | Content content => Returns content
    | Failed _ message => Throws message
    end
  else Throws "No API key".

(** The [try]/[catch] of lines 84-108: the pair of [analysisResult] and
    [apiUsed]. *)
Definition analysisOf (DEEPSEEK_API_KEY : option string)
    (post : string -> N -> apiOutcome) (csvContent : string) : string * string :=
  match callApi DEEPSEEK_API_KEY post (analysisPrompt csvContent) with
  | Returns analysisResult => (analysisResult, "deepseek")
  | Throws _ => (getEnhancedMockAnalysis csvContent, "mock")
  end.

End FunctionsUpload.

(** ** [src/functions/server.js]: authentication *)

Module FunctionsAuth.

(** An element of the array [users], line 255. *)
Record user := mkUser {
  id : string;
  name : string;
  email : string;
  password : string
}.

(** What a handler answers. *)
Inductive response : Type :=
| Status (code : nat) (error : string)
| Message (message : string)
| Session (token : string) (id name email : string).

(** What the middleware does with a request: it answers, or it sets
    [req.user] and calls [next]. *)
Inductive passage (P : Type) : Type :=
| Answer (r : response)
| Next (payload : P).

Arguments Answer {P} r.
Arguments Next {P} payload.

(** [token], line 29: [authHeader && authHeader.split(' ')[1]]. *)
Definition tokenOf (authHeader : option string) : option string :=
  match authHeader with
  | Some header =>
      if truthy header then nth_error (split (ascii_of_nat 32) header) 1
      else Some header
  | None => None
  end.

(** [authenticateToken], lines 27-43; [verify] stands for [jwt.verify] with
    the secret of the server: the payload of a valid token, or an error. *)
Definition authenticateToken {P : Type} (verify : string -> option P)
    (authHeader : option string) : passage P :=
  let token := tokenOf authHeader in
  if falsy token then Answer (Status 401 "Access token required")
  else
    match token with
    | Some t =>
        match verify t with
        | None => Answer (Status 403 "Invalid token")
        | Some payload => Next payload
        end
    | None => Answer (Status 401 "Access token required")
    end.

(** [users.find(u => u.email === email)] *)
Definition findByEmail (users : list user) (e : string) : option user :=
  find (fun u => String.eqb (email u) e) users.

(** The handler of [/api/auth/register], lines 237-263, up to the
    [await] of line 254: an answer, or the fields to go on with. *)
Definition registerCheck (name email password : option string) (users : list user)
  : response + (string * string * string) :=
  if falsy name || falsy email || falsy password then
    inl (Status 400 "All fields are required")
  else
    match name, email, password with
    | Some n, Some e, Some p =>
        if stringLength p <? 6 then
          inl (Status 400 "Password must be at least 6 characters")
        else
          match findByEmail users e with
          | Some _ => inl (Status 400 "User already exists")
          | None => inr (n, e, p)
          end
    | _, _, _ => inl (Status 400 "All fields are required")
    end.

(** The same handler from the [await] on: [hashedPassword] is what
    [bcrypt.hash] resolved to, or [None] when it rejected; [now] is
    [Date.now().toString()]; [users] is the array as it is by then. *)
Definition registerCommit (fields : string * string * string)
    (hashedPassword : option string) (now : string) (users : list user)
  : response * list user :=
  let '(n, e, _) := fields in
  match hashedPassword with
  | Some h =>
      (Message "User registered successfully",
       users ++ [ {| id := now; name := n; email := e; password := h |} ])
  | None => (Status 500 "Registration failed", users)
  end.

(** The handler run without another request in between. *)
Definition register (hash : string -> option string) (now : string)
    (name email password : option string) (users : list user)
  : response * list user :=
  match registerCheck name email password users with
  | inl answer => (answer, users)
  | inr (n, e, p) => registerCommit (n, e, p) (hash p) now users
  end.

(** The handler of [/api/auth/login], lines 265-294; [compare] stands for
    [bcrypt.compare] and [sign] for [jwt.sign] with the secret of the
    server. *)
Definition login (compare : string -> string -> option bool)
    (sign : string -> string -> string -> string)
    (email password : option string) (users : list user) : response :=
  if falsy email || falsy password then
    Status 400 "Email and password required"
  else
    match email, password with
    | Some e, Some p =>
        match findByEmail users e with
        | None => Status 401 "Invalid credentials"
        | Some u =>
            match compare p (FunctionsAuth.password u) with
            | None => Status 500 "Login failed"
            | Some false => Status 401 "Invalid credentials"
            | Some true =>
                Session (sign (id u) (FunctionsAuth.name u) (FunctionsAuth.email u))
                        (id u) (FunctionsAuth.name u) (FunctionsAuth.email u)
            end
        end
    | _, _ => Status 400 "Email and password required"
    end.

End FunctionsAuth.

(** ** The vocabulary of the statements *)

Definition guessI2C : protocolGuess :=
  {| protocol := "I2C"; confidence := "High"; pins := ["SDA (Data)"; "SCL (Clock)"] |}.

Definition guessSPI : protocolGuess :=
  {| protocol := "SPI"; confidence := "High"; pins := ["MOSI"; "MISO"; "SCK"; "CS/SS"] |}.

Definition guessUART : protocolGuess :=
  {| protocol := "UART/Serial"; confidence := "Medium"; pins := ["TX"; "RX"] |}.

(** The roles [prefix_0 .. prefix_{n-1}]. *)
Definition numbered (prefix : string) (n : nat) : list string :=
  map (fun i => (prefix ++ numToString i)%string) (seq 0 n).

(** The columns of [headers], numbered from [i], that [analyzeChannels]
    profiles. *)
Definition profiled_from (dataLines : list string) (i : nat) (headers : list string)
  : list channel :=
  concat (mapi_from i
            (fun header index =>
               if isTimeColumn header index then [] else [profile dataLines header index])
            headers).

(** The window in the words of the specification: the first
    [min(20, rowCount)] data rows. *)
Definition specWindow (rows : list string) : list string :=
  firstn (Nat.min 20 (length rows)) rows.

(** What the variant answers where [script.js] answers [g]. *)
Definition variantFormat (g : formatGuess) : formatGuess :=
  if String.eqb (format g) "Digilent/WaveForms" || String.eqb (format g) "Generic/Raw"
  then {| format := "Unknown"; type := "unknown" |}
  else g.

Definition variantProtocol (g : protocolGuess) : protocolGuess :=
  if String.eqb (protocol g) "Parallel/Unknown" || String.eqb (protocol g) "Unknown"
  then guessUART
  else g.

(** The report of a capture without any line. *)
Definition emptyReport : string :=
"PULSEAI DETAILED ANALYSIS REPORT
==================================================

FILE METADATA:
• Analyzer Format: Unknown
• Total Samples: -1
• Data Channels: 0
• Time Column: None

DETECTED PROTOCOL:
• Protocol: Unknown
• Confidence: Low
• Type: Custom Format

PIN MAPPING ANALYSIS:


SIGNAL CHARACTERISTICS:


ESTIMATED DEVICES:
• Primary: Unknown Master
• Secondary: No secondary device detected

TIMING ANALYSIS:
• Sample Rate: Estimated from time column
• Bus Speed: Unknown

RECOMMENDATIONS:
1. Verify protocol settings match device datasheets
2. Check signal integrity and voltage levels
3. Confirm device addresses for I2C devices
4. Review timing constraints for reliable communication

NOTE: This analysis is based on signal patterns. For device-specific identification, additional signature analysis may be required.".

(** The occurrences of the character [c] in [s]. *)
Fixpoint countChar (c : ascii) (s : string) : nat :=
  match s with
  | EmptyString => 0
  | String x s' => (if Ascii.eqb x c then 1 else 0) + countChar c s'
  end.

(** The positions of a column at which the value differs from the one
    before. *)
Fixpoint changes (data : list string) : nat :=
  match data with
  | [] => 0
  | x :: rest =>
      match rest with
      | [] => 0
      | y :: _ => (if String.eqb y x then 0 else 1) + changes rest
      end
  end.

(** A channel reduced to the three marks [detectProtocol] reads. *)
Definition marksOnly (c : channel) : channel :=
  {| name := EmptyString; index := 0; uniqueValues := 0; transitions := 0;
     isDigital := isDigital c; isClock := isClock c; isData := isData c |}.

(** The three marks of a channel. *)
Definition marks (c : channel) : bool * bool * bool :=
  (isDigital c, isClock c, isData c).

(** The condition of the I2C block, lines 949-953, on the digital channels. *)
Definition i2cShape (digitalChannels : list channel) : bool :=
  (length digitalChannels =? 2)
  && existsb isClock digitalChannels
  && existsb (fun c => isData c && negb (isClock c)) digitalChannels.

(** The condition of the SPI block, lines 958-962. *)
Definition spiShape (digitalChannels : list channel) : bool :=
  (3 <=? length digitalChannels) && (length digitalChannels <=? 5)
  && (1 <=? length (filter isClock digitalChannels))
  && (2 <=? length (filter isData digitalChannels)).

(** Some header token, in lower case, contains [needle]. *)
Definition headerHas (headers : list string) (needle : string) : bool :=
  existsb (fun header => includes (toLowerCase header) needle) headers.

(** The space between the scheme and the token of an Authorization header. *)
Definition space : ascii := ascii_of_nat 32.

(** The e-mail addresses of the registered users, in their order. *)
Definition emails (users : list FunctionsAuth.user) : list string :=
  map FunctionsAuth.email users.

(** U+00A0, the no-break space, and U+FEFF, the byte order mark, in
    UTF-8. *)
Definition NBSP : string :=
  String (ascii_of_nat 194) (String (ascii_of_nat 160) EmptyString).

Definition BOM : string :=
  String (ascii_of_nat 239)
    (String (ascii_of_nat 187) (String (ascii_of_nat 191) EmptyString)).

(** ** The captures of the examples *)

(** The capture of the example: eleven rows, SCL alternating at every row,
    SDA changing three times. *)
Definition i2cCapture : list string :=
  [ "Time,SCL,SDA";
    "0,0,1"; "1,1,1"; "2,0,1"; "3,1,0"; "4,0,0"; "5,1,0";
    "6,0,1"; "7,1,1"; "8,0,1"; "9,1,0"; "10,0,0" ].

(** Four digital channels, one of them clock-like and two data-like. *)
Definition spiChannels : list channel :=
  [ mkChannel "D0" 1 2 3 true false true;
    mkChannel "D1" 2 2 2 true false true;
    mkChannel "CLK" 3 2 12 true true false;
    mkChannel "CS" 4 1 0 true false false ].

(** [n] digital channels without activity. *)
Definition idleChannels (n : nat) : list channel :=
  map (fun i => mkChannel "D" i 1 0 true false false) (seq 0 n).

(** A capture of one channel and twenty data rows, the last of which is the
    only one to differ. *)
Definition twentyRows : list string :=
  "A" :: repeat "0" 19 ++ ["1"].

(** A capture whose second data row lacks the field of the third column. *)
Definition raggedCapture : list string :=
  [ "Time,A,B"; "0,1,1"; "1,0"; "2,1,1" ].

(** A capture whose first column is no time column and takes eight values. *)
Definition mixedCapture : string :=
  join (String LF EmptyString)
    [ "Vref,SCL,SDA";
      "0.1,0,1"; "0.2,1,1"; "0.3,0,1"; "0.4,1,0";
      "0.5,0,0"; "0.6,1,0"; "0.7,0,1"; "0.8,1,1" ].

(** Six data rows, the clock changing at each. *)
Definition sixRows : list string :=
  [ "Time,SCL,SDA"; "0,0,1"; "1,1,1"; "2,0,0"; "3,1,0"; "4,0,1"; "5,1,1" ].

(** ** Facts about the primitives *)

Section ArrayFacts.

Context {A B : Type}.

Lemma mapi_from_length (f : A -> nat -> B) (a : list A) :
  forall i, length (mapi_from i f a) = length a.
Proof.
  induction a as [|x rest IH]; intro i; simpl; [reflexivity|].
  now rewrite IH.
Qed.

Lemma mapi_from_nth_error (f : A -> nat -> B) (a : list A) :
  forall i k,
    nth_error (mapi_from i f a) k = option_map (fun x => f x (i + k)) (nth_error a k).
Proof.
  induction a as [|x rest IH]; intros i k.
  - now destruct k.
  - destruct k as [|k]; simpl.
    + now rewrite Nat.add_0_r.
    + rewrite IH. now rewrite Nat.add_succ_r.
Qed.

(** A callback that ignores the element numbers the positions. *)
Lemma mapi_from_const (g : nat -> B) (a : list A) :
  forall i, mapi_from i (fun _ k => g k) a = map g (seq i (length a)).
Proof.
  induction a as [|x rest IH]; intro i; simpl; [reflexivity|].
  now rewrite IH.
Qed.

Lemma firstn_min_length (n : nat) (a : list A) :
  firstn (Nat.min n (length a)) a = firstn n a.
Proof.
  destruct (Nat.le_ge_cases n (length a)) as [H|H].
  - now rewrite Nat.min_l.
  - rewrite Nat.min_r by exact H. now rewrite firstn_all, firstn_all2.
Qed.

Lemma nth_error_tail (a : list A) (k : nat) :
  nth_error (tl a) k = nth_error a (S k).
Proof.
  destruct a; [now destruct k | reflexivity].
Qed.

(** The slice of line 923 holds the elements 1 to 19 of the array. *)
Lemma slice_window (a : list A) :
  slice 1 (Nat.min 20 (length a)) a = firstn 19 (tl a).
Proof.
  unfold slice. rewrite firstn_min_length.
  now destruct a.
Qed.

End ArrayFacts.

(** The primitives on small inputs. *)

Example split_fields : split comma "a,b,,c" = ["a"; "b"; EmptyString; "c"].
Proof. reflexivity. Qed.

Example split_empty_string : split comma EmptyString = [EmptyString].
Proof. reflexivity. Qed.

Example trim_both_ends : trim "  a b  " = "a b".
Proof. reflexivity. Qed.

Example trim_beyond_ascii :
  trim (BOM ++ " a" ++ NBSP ++ "b " ++ NBSP)%string = ("a" ++ NBSP ++ "b")%string
  /\ trim (NBSP ++ BOM)%string = EmptyString.
Proof. split; reflexivity. Qed.

Example stringLength_units :
  stringLength "pässw" = 5 /\ String.length "pässw" = 6.
Proof. split; reflexivity. Qed.

Example toLowerCase_header : toLowerCase "Time [s]" = "time [s]".
Proof. reflexivity. Qed.

Example newSet_first_occurrences :
  newSet ["0"; "1"; "0"; "2"; "1"] = ["0"; "1"; "2"].
Proof. reflexivity. Qed.

Example countTransitions_adjacent : countTransitions ["0"; "1"; "1"; "0"] = 2.
Proof. reflexivity. Qed.

Example field_of_short_row : field 2 "7,1" = "0" /\ field 1 "7, 1 " = "1".
Proof. split; reflexivity. Qed.

(** ** The protocol classifier *)

Lemma existsb_intro {A} (p : A -> bool) (l : list A) (x : A) :
  In x l -> p x = true -> existsb p l = true.
Proof.
  intros Hin Hp. apply existsb_exists. now exists x.
Qed.

Lemma ruleI2C_fires (digitalChannels : list channel) (c d : channel) :
  length digitalChannels = 2 ->
  In c digitalChannels -> isClock c = true ->
  In d digitalChannels -> isData d = true -> isClock d = false ->
  ruleI2C digitalChannels = Some guessI2C.
Proof.
  intros Hlen Hc Hclk Hd Hdat Hnclk. unfold ruleI2C.
  rewrite Hlen. simpl Nat.eqb. cbv iota.
  rewrite (existsb_intro isClock _ c Hc Hclk).
  rewrite (existsb_intro (fun c => isData c && negb (isClock c)) _ d Hd).
  - reflexivity.
  - now rewrite Hdat, Hnclk.
Qed.

Lemma ruleI2C_needs_two (digitalChannels : list channel) :
  length digitalChannels <> 2 -> ruleI2C digitalChannels = None.
Proof.
  intro H. unfold ruleI2C.
  now destruct (Nat.eqb_spec (length digitalChannels) 2).
Qed.

Lemma ruleSPI_fires (digitalChannels : list channel) :
  3 <= length digitalChannels <= 5 ->
  1 <= length (filter isClock digitalChannels) ->
  2 <= length (filter isData digitalChannels) ->
  ruleSPI digitalChannels = Some guessSPI.
Proof.
  intros [Hlo Hhi] Hclk Hdat. unfold ruleSPI.
  apply Nat.leb_le in Hlo, Hhi, Hclk, Hdat.
  now rewrite Hlo, Hhi, Hclk, Hdat.
Qed.

(** The profiles of a capture whose header is Time, SCL, SDA. *)
Lemma analyzeChannels_Time_SCL_SDA (dataLines : list string) :
  analyzeChannels ["Time"; "SCL"; "SDA"] dataLines
  = [profile dataLines "SCL" 1; profile dataLines "SDA" 2].
Proof. reflexivity. Qed.

(** C1. Whenever the digital channels are exactly two, one of them clock-like
    and one of them data-like and not clock-like, [detectProtocol] returns
    I2C with confidence High and the pin roles SDA (Data), SCL (Clock).  In
    particular a capture with the header Time, SCL, SDA whose SCL column has
    10 transitions and whose SDA column has 3 transitions in the sampling
    window, both with at most 4 distinct values, is classified I2C/High. *)
Theorem detectProtocol_I2C :
  (forall (channels : list channel) (c d : channel),
      length (filter isDigital channels) = 2 ->
      In c (filter isDigital channels) -> isClock c = true ->
      In d (filter isDigital channels) -> isData d = true -> isClock d = false ->
      detectProtocol channels = guessI2C)
  /\
  (forall dataLines : list string,
      countTransitions (channelData dataLines 1) = 10 ->
      countTransitions (channelData dataLines 2) = 3 ->
      countUnique (channelData dataLines 1) <= 4 ->
      countUnique (channelData dataLines 2) <= 4 ->
      detectProtocol (analyzeChannels ["Time"; "SCL"; "SDA"] dataLines) = guessI2C).
Proof.
  assert (general : forall channels c d,
             length (filter isDigital channels) = 2 ->
             In c (filter isDigital channels) -> isClock c = true ->
             In d (filter isDigital channels) -> isData d = true -> isClock d = false ->
             detectProtocol channels = guessI2C).
  { intros channels c d Hlen Hc Hclk Hd Hdat Hnclk. unfold detectProtocol.
    now rewrite (ruleI2C_fires _ c d Hlen Hc Hclk Hd Hdat Hnclk). }
  split; [exact general|].
  intros dataLines Hscl Hsda Huscl Husda.
  rewrite analyzeChannels_Time_SCL_SDA.
  assert (Hdig : filter isDigital [profile dataLines "SCL" 1; profile dataLines "SDA" 2]
                 = [profile dataLines "SCL" 1; profile dataLines "SDA" 2]).
  { simpl. apply Nat.leb_le in Huscl, Husda. now rewrite Huscl, Husda. }
  apply (general _ (profile dataLines "SCL" 1) (profile dataLines "SDA" 2));
    rewrite ?Hdig; simpl; auto; now rewrite ?Hscl, ?Hsda.
Qed.

Lemma detectProtocol_I2C_witness :
  detectProtocol
    [ mkChannel "SDA" 1 2 3 true false true; mkChannel "SCL" 2 2 10 true true true ]
  = guessI2C
  /\ transitions (profile i2cCapture "SCL" 1) = 10
  /\ transitions (profile i2cCapture "SDA" 2) = 3
  /\ detectProtocol (analyzeChannels ["Time"; "SCL"; "SDA"] i2cCapture) = guessI2C.
Proof.
  split; [|split; [|split]].
  - apply (proj1 detectProtocol_I2C _
             (mkChannel "SCL" 2 2 10 true true true)
             (mkChannel "SDA" 1 2 3 true false true));
      simpl; auto.
  - reflexivity.
  - reflexivity.
  - apply (proj2 detectProtocol_I2C i2cCapture); vm_compute; try reflexivity; lia.
Defined.

(** C2. Whenever the digital channels are between 3 and 5, at least one of
    them clock-like and at least two data-like, [detectProtocol] returns SPI
    with confidence High and the pin roles MOSI, MISO, SCK, CS/SS.  (With
    three or more digital channels the I2C rule cannot fire.) *)
Theorem detectProtocol_SPI (channels : list channel) :
  3 <= length (filter isDigital channels) <= 5 ->
  1 <= length (filter isClock (filter isDigital channels)) ->
  2 <= length (filter isData (filter isDigital channels)) ->
  ruleI2C (filter isDigital channels) = None
  /\ detectProtocol channels = guessSPI.
Proof.
  intros Hlen Hclk Hdat.
  assert (Hi2c : ruleI2C (filter isDigital channels) = None)
    by (apply ruleI2C_needs_two; lia).
  split; [exact Hi2c|].
  unfold detectProtocol.
  now rewrite Hi2c, (ruleSPI_fires _ Hlen Hclk Hdat).
Qed.

Lemma detectProtocol_SPI_witness :
  detectProtocol spiChannels = guessSPI.
Proof.
  apply (detectProtocol_SPI spiChannels); simpl; lia.
Defined.

(** C3. When neither the I2C block nor the SPI block returns,
    [detectProtocol] answers by the number [n] of digital channels alone:
    UART/Serial, Medium, TX, RX when [n] is 1 or 2; otherwise
    Parallel/Unknown, Low, Data_0 .. Data_{n-1} when [n] exceeds 8; otherwise
    Unknown, Low, Channel_0 .. Channel_{n-1}. *)
Theorem detectProtocol_fallthrough (channels : list channel) :
  let n := length (filter isDigital channels) in
  ruleI2C (filter isDigital channels) = None ->
  ruleSPI (filter isDigital channels) = None ->
  detectProtocol channels =
    if (n =? 1) || (n =? 2) then guessUART
    else if 8 <? n then
      {| protocol := "Parallel/Unknown"; confidence := "Low"; pins := numbered "Data_" n |}
    else
      {| protocol := "Unknown"; confidence := "Low"; pins := numbered "Channel_" n |}.
Proof.
  intros n Hi2c Hspi. unfold detectProtocol. rewrite Hi2c, Hspi.
  unfold ruleRest, mapi, numbered. fold n.
  rewrite !(mapi_from_const (fun i => (_ ++ numToString i)%string)).
  reflexivity.
Qed.

Lemma detectProtocol_fallthrough_witness :
  detectProtocol (idleChannels 1) = guessUART
  /\ detectProtocol (idleChannels 9)
     = {| protocol := "Parallel/Unknown"; confidence := "Low";
          pins := ["Data_0"; "Data_1"; "Data_2"; "Data_3"; "Data_4";
                   "Data_5"; "Data_6"; "Data_7"; "Data_8"] |}
  /\ detectProtocol (idleChannels 6)
     = {| protocol := "Unknown"; confidence := "Low";
          pins := ["Channel_0"; "Channel_1"; "Channel_2";
                   "Channel_3"; "Channel_4"; "Channel_5"] |}.
Proof.
  split; [|split].
  - exact (detectProtocol_fallthrough (idleChannels 1) eq_refl eq_refl).
  - exact (detectProtocol_fallthrough (idleChannels 9) eq_refl eq_refl).
  - exact (detectProtocol_fallthrough (idleChannels 6) eq_refl eq_refl).
Defined.

(** ** The channel profiler *)

Lemma forEach_from_push (dataLines headers : list string) :
  forall (i : nat) (channels : list channel),
    forEach_from i
      (fun header index channels =>
         if isTimeColumn header index then channels
         else channels ++ [profile dataLines header index])
      headers channels
    = channels ++ profiled_from dataLines i headers.
Proof.
  unfold profiled_from.
  induction headers as [|header rest IH]; intros i channels; simpl.
  - now rewrite app_nil_r.
  - rewrite IH. destruct (isTimeColumn header i); simpl.
    + reflexivity.
    + now rewrite <- app_assoc.
Qed.

Lemma analyzeChannels_profiled (headers dataLines : list string) :
  analyzeChannels headers dataLines = profiled_from dataLines 0 headers.
Proof.
  unfold analyzeChannels, forEach. now rewrite forEach_from_push.
Qed.

(** Past the first column nothing is skipped. *)
Lemma profiled_from_succ (dataLines headers : list string) :
  forall i, profiled_from dataLines (S i) headers
            = mapi_from (S i) (profile dataLines) headers.
Proof.
  unfold profiled_from.
  induction headers as [|header rest IH]; intro i; simpl; [reflexivity|].
  now rewrite IH.
Qed.

Lemma mapi_from_profile_index (dataLines headers : list string) (c : channel) :
  forall i, In c (mapi_from i (profile dataLines) headers) -> i <= index c.
Proof.
  induction headers as [|header rest IH]; intros i Hin; simpl in Hin; [easy|].
  destruct Hin as [<-|Hin]; simpl; [lia|].
  apply IH in Hin. lia.
Qed.

Lemma channelData_rows (dataLines : list string) (index : nat) :
  channelData dataLines index = map (field index) (firstn 19 (tl dataLines)).
Proof.
  unfold channelData. now rewrite slice_window.
Qed.

Lemma channelData_firstn (dataLines : list string) (index : nat) :
  channelData (firstn 20 dataLines) index = channelData dataLines index.
Proof.
  rewrite !channelData_rows. f_equal.
  destruct dataLines as [|header rows]; [reflexivity|].
  change (firstn 19 (firstn 19 rows) = firstn 19 rows).
  rewrite firstn_firstn. now rewrite Nat.min_id.
Qed.

Lemma profile_firstn (dataLines : list string) (header : string) (index : nat) :
  profile (firstn 20 dataLines) header index = profile dataLines header index.
Proof.
  unfold profile. now rewrite channelData_firstn.
Qed.

Lemma profiled_from_firstn (dataLines headers : list string) :
  forall i, profiled_from (firstn 20 dataLines) i headers
            = profiled_from dataLines i headers.
Proof.
  unfold profiled_from.
  induction headers as [|header rest IH]; intro i; cbn [mapi_from concat];
    [reflexivity|].
  now rewrite IH, profile_firstn.
Qed.

(** C4, as stated, fails: of twenty data rows the profiler reads nineteen,
    so the twentieth changes nothing in the profile although the window of
    the specification holds it. *)
Lemma window_is_not_twenty_rows :
  length (tl twentyRows) = 20
  /\ length (channelData twentyRows 0) = 19
  /\ channelData twentyRows 0 <> map (field 0) (specWindow (tl twentyRows))
  /\ uniqueValues (profile twentyRows "A" 0) = 1
  /\ countUnique (map (field 0) (specWindow (tl twentyRows))) = 2
  /\ transitions (profile twentyRows "A" 0) = 0
  /\ countTransitions (map (field 0) (specWindow (tl twentyRows))) = 1.
Proof.
  repeat split; try reflexivity.
  intro H. apply (f_equal (@length string)) in H. vm_compute in H. discriminate.
Qed.

(** C4, amended. [analyzeChannels] reads the data rows that stand among the
    first 20 lines it is given, the header line being the first of them: for
    every channel [channelData] holds the fields of exactly the first
    [min(19, rowCount)] data rows, the distinct values and the transitions of
    the profile are counted over them, and the lines past the twentieth never
    change the result. *)
Theorem channelData_window (headers dataLines : list string) (header : string) (index : nat) :
  let rows := tl dataLines in
  channelData dataLines index
  = map (field index) (firstn (Nat.min 19 (length rows)) rows)
  /\ length (channelData dataLines index) = Nat.min 19 (length rows)
  /\ uniqueValues (profile dataLines header index)
     = countUnique (map (field index) (firstn (Nat.min 19 (length rows)) rows))
  /\ transitions (profile dataLines header index)
     = countTransitions (map (field index) (firstn (Nat.min 19 (length rows)) rows))
  /\ analyzeChannels headers dataLines = analyzeChannels headers (firstn 20 dataLines).
Proof.
  intro rows.
  assert (Hdata : channelData dataLines index
                  = map (field index) (firstn (Nat.min 19 (length rows)) rows))
    by (rewrite firstn_min_length; apply channelData_rows).
  repeat split.
  - exact Hdata.
  - rewrite Hdata, length_map, length_firstn.
    rewrite <- Nat.min_assoc. now rewrite Nat.min_id.
  - simpl. now rewrite Hdata.
  - simpl. now rewrite Hdata.
  - now rewrite !analyzeChannels_profiled, profiled_from_firstn.
Qed.

(** C5. [analyzeChannels] leaves the first column out exactly when its
    header, in lower case, contains time or sample; otherwise the first
    column is profiled as the others are, and every later column is profiled
    whatever its header. *)
Theorem analyzeChannels_time_column (header : string) (rest dataLines : list string) :
  let timeLike :=
    includes (toLowerCase header) "time" || includes (toLowerCase header) "sample" in
  analyzeChannels (header :: rest) dataLines
  = (if timeLike then [] else [profile dataLines header 0])
    ++ mapi_from 1 (profile dataLines) rest
  /\ ((exists c, In c (analyzeChannels (header :: rest) dataLines) /\ index c = 0)
      <-> timeLike = false)
  /\ (forall i h, nth_error rest i = Some h ->
                  In (profile dataLines h (S i))
                     (analyzeChannels (header :: rest) dataLines)).
Proof.
  intro timeLike.
  assert (Heq : analyzeChannels (header :: rest) dataLines
                = (if timeLike then [] else [profile dataLines header 0])
                  ++ mapi_from 1 (profile dataLines) rest).
  { rewrite analyzeChannels_profiled. unfold profiled_from. simpl.
    fold (profiled_from dataLines 1 rest). rewrite profiled_from_succ.
    unfold isTimeColumn. simpl. fold timeLike. now destruct timeLike. }
  split; [exact Heq|split].
  - rewrite Heq. split.
    + intros (c & Hin & Hidx). apply in_app_or in Hin.
      destruct Hin as [Hin|Hin].
      * now destruct timeLike.
      * apply mapi_from_profile_index in Hin. lia.
    + intros ->. exists (profile dataLines header 0). simpl. auto.
  - intros i h Hnth. rewrite Heq. apply in_or_app. right.
    apply (nth_error_In _ i).
    now rewrite mapi_from_nth_error, Hnth.
Qed.

(** C6. A row with fewer fields than the channel's index asks for raises no
    error: the callback of line 923 returns the literal 0 for it, and when
    the row stands in the sampling window this 0 is the value the row
    contributes to [channelData]; every row of the window contributes one
    value. *)
Theorem ragged_row_yields_zero (dataLines : list string) (index k : nat) (line : string) :
  nth_error dataLines (S k) = Some line ->
  k < 19 ->
  length (split comma line) <= index ->
  field index line = "0"
  /\ nth_error (channelData dataLines index) k = Some "0"
  /\ length (channelData dataLines index) = Nat.min 19 (length dataLines - 1).
Proof.
  intros Hrow Hk Hshort.
  assert (Hfield : field index line = "0").
  { unfold field. simpl.
    now rewrite (proj2 (nth_error_None (split comma line) index) Hshort). }
  split; [exact Hfield|split].
  - rewrite channelData_rows, nth_error_map.
    rewrite nth_error_firstn.
    destruct (Nat.ltb_spec k 19) as [_|]; [|lia].
    rewrite nth_error_tail, Hrow. simpl. now rewrite Hfield.
  - rewrite channelData_rows, length_map, length_firstn.
    f_equal. destruct dataLines as [|header rows]; simpl; lia.
Qed.

Lemma ragged_row_yields_zero_witness :
  field 2 "1,0" = "0"
  /\ nth_error (channelData raggedCapture 2) 1 = Some "0"
  /\ length (channelData raggedCapture 2) = 3.
Proof.
  apply (ragged_row_yields_zero raggedCapture 2 1 "1,0").
  - reflexivity.
  - lia.
  - simpl. lia.
Defined.

(** ** The report *)

(** C7. A capture without any non-blank line, the empty string among them,
    goes through the pipeline without an exception: there is no header, the
    profile sequence is empty, the guess is Unknown with no pin role, and
    [getEnhancedMockAnalysis] returns a report. *)
Theorem empty_capture_report (csvContent : string) :
  nonBlankLines csvContent = [] ->
  let lines := nonBlankLines csvContent in
  headersOf lines = []
  /\ analyzeChannels (headersOf lines) lines = []
  /\ detectProtocol (analyzeChannels (headersOf lines) lines)
     = {| protocol := "Unknown"; confidence := "Low"; pins := [] |}
  /\ getEnhancedMockAnalysis csvContent = emptyReport.
Proof.
  intros Hnone lines. unfold getEnhancedMockAnalysis. subst lines.
  rewrite Hnone. repeat split; reflexivity.
Qed.

Lemma empty_capture_report_witness :
  nonBlankLines EmptyString = []
  /\ analyzeChannels (headersOf (nonBlankLines EmptyString)) (nonBlankLines EmptyString) = []
  /\ getEnhancedMockAnalysis EmptyString = emptyReport.
Proof.
  pose proof (empty_capture_report EmptyString eq_refl) as H.
  simpl in H. destruct H as (_ & Hch & _ & Hrep).
  split; [reflexivity|split]; [exact Hch|exact Hrep].
Defined.

(** *** Blank lines *)

(** Induction on the length of a text, for the functions that look three
    bytes ahead. *)
Lemma string_length_ind (P : string -> Prop) :
  (forall s, (forall r, String.length r < String.length s -> P r) -> P s) ->
  forall s, P s.
Proof.
  intros step s.
  assert (H : forall n r, String.length r < n -> P r).
  { induction n as [|n IH]; intros r Hr; [lia|].
    apply step. intros r' Hr'. apply IH. lia. }
  apply (H (S (String.length s))). lia.
Qed.

(** The three shapes of a text that begins with a white space character. *)
Lemma afterWhiteSpace_cases (s r : string) :
  afterWhiteSpace s = Some r ->
  (exists a, s = String a r /\ isWhiteSpace1 a = true)
  \/ (exists a b, s = String a (String b r)
                  /\ isWhiteSpace1 a = false /\ isWhiteSpace2 a b = true)
  \/ (exists a b c, s = String a (String b (String c r))
                    /\ isWhiteSpace1 a = false /\ isWhiteSpace2 a b = false
                    /\ isWhiteSpace3 a b c = true).
Proof.
  unfold afterWhiteSpace. destruct s as [|a s1]; [discriminate|].
  destruct (isWhiteSpace1 a) eqn:H1.
  { intros [= <-]. left. now exists a. }
  destruct s1 as [|b s2]; [discriminate|].
  destruct (isWhiteSpace2 a b) eqn:H2.
  { intros [= <-]. right. left. now exists a, b. }
  destruct s2 as [|c s3]; [discriminate|].
  destruct (isWhiteSpace3 a b c) eqn:H3; [|discriminate].
  intros [= <-]. right. right. now exists a, b, c.
Qed.

Lemma afterWhiteSpace_shorter (s r : string) :
  afterWhiteSpace s = Some r -> String.length r < String.length s.
Proof.
  intro H. destruct (afterWhiteSpace_cases s r H)
    as [(a & -> & _)|[(a & b & -> & _)|(a & b & c & -> & _)]]; simpl; lia.
Qed.

Lemma trimStart_unfold (s : string) :
  trimStart s = match afterWhiteSpace s with
                | Some r => trimStart r
                | None => s
                end.
Proof.
  destruct s as [|a [|b [|c s3]]]; simpl; try reflexivity.
  - now destruct (isWhiteSpace1 a).
  - destruct (isWhiteSpace1 a); [reflexivity|]. now destruct (isWhiteSpace2 a b).
  - destruct (isWhiteSpace1 a); [reflexivity|].
    destruct (isWhiteSpace2 a b); [reflexivity|]. now destruct (isWhiteSpace3 a b c).
Qed.

Lemma allWhiteSpace_unfold (s : string) :
  allWhiteSpace s = match s with
                    | EmptyString => true
                    | String _ _ =>
                        match afterWhiteSpace s with
                        | Some r => allWhiteSpace r
                        | None => false
                        end
                    end.
Proof.
  destruct s as [|a [|b [|c s3]]]; simpl; try reflexivity.
  - now destruct (isWhiteSpace1 a).
  - destruct (isWhiteSpace1 a); [reflexivity|]. now destruct (isWhiteSpace2 a b).
  - destruct (isWhiteSpace1 a); [reflexivity|].
    destruct (isWhiteSpace2 a b); [reflexivity|]. now destruct (isWhiteSpace3 a b c).
Qed.

(** After a white space character of more than one byte no byte is below
    128: none is a line feed, a comma or a quote. *)
Lemma isWhiteSpace2_bytes (a b : ascii) :
  isWhiteSpace2 a b = true -> 128 <= nat_of_ascii a /\ 128 <= nat_of_ascii b.
Proof.
  unfold isWhiteSpace2. intro H. apply andb_prop in H. destruct H as [Ha Hb].
  apply Nat.eqb_eq in Ha, Hb. lia.
Qed.

Lemma isWhiteSpace3_bytes (a b c : ascii) :
  isWhiteSpace3 a b c = true ->
  128 <= nat_of_ascii a /\ 128 <= nat_of_ascii b /\ 128 <= nat_of_ascii c.
Proof.
  unfold isWhiteSpace3. intro H.
  assert (Hab : (nat_of_ascii a =? 225) || (nat_of_ascii a =? 226)
                || (nat_of_ascii a =? 227) || (nat_of_ascii a =? 239) = true
                /\ (nat_of_ascii b =? 154) || (nat_of_ascii b =? 128)
                   || (nat_of_ascii b =? 129) || (nat_of_ascii b =? 187) = true
                /\ (128 <=? nat_of_ascii c) || (nat_of_ascii c =? 128) = true).
  { destruct (nat_of_ascii a =? 225), (nat_of_ascii a =? 226),
      (nat_of_ascii a =? 227), (nat_of_ascii a =? 239),
      (nat_of_ascii b =? 154), (nat_of_ascii b =? 128),
      (nat_of_ascii b =? 129), (nat_of_ascii b =? 187);
      cbn [andb orb] in H; try discriminate;
      destruct (Nat.leb_spec 128 (nat_of_ascii c));
      cbn [andb orb] in *; repeat split; try reflexivity;
      destruct (Nat.eqb_spec (nat_of_ascii c) 128); try reflexivity; try lia;
      destruct (Nat.eqb_spec (nat_of_ascii c) 168); try lia;
      destruct (Nat.eqb_spec (nat_of_ascii c) 169); try lia;
      destruct (Nat.eqb_spec (nat_of_ascii c) 175); try lia;
      destruct (Nat.eqb_spec (nat_of_ascii c) 159); try lia;
      destruct (Nat.eqb_spec (nat_of_ascii c) 191); try lia;
      cbn [andb orb] in H; discriminate. }
  destruct Hab as (Ha & Hb & Hc).
  repeat (apply orb_prop in Ha; destruct Ha as [Ha|Ha]);
    repeat (apply orb_prop in Hb; destruct Hb as [Hb|Hb]);
    apply orb_prop in Hc; destruct Hc as [Hc|Hc];
    try apply Nat.eqb_eq in Ha; try apply Nat.eqb_eq in Hb;
    try apply Nat.eqb_eq in Hc; try apply Nat.leb_le in Hc; lia.
Qed.

Lemma high_byte_differs (a q : ascii) :
  128 <= nat_of_ascii a -> nat_of_ascii q < 128 -> Ascii.eqb a q = false.
Proof.
  intros Ha Hq. destruct (Ascii.eqb_spec a q) as [->|]; [lia|reflexivity].
Qed.

Lemma trimEnd_empty (s : string) :
  trimEnd s = EmptyString -> allWhiteSpace s = true.
Proof.
  destruct s as [|c s]; [reflexivity|].
  cbn [trimEnd]. now destruct (allWhiteSpace (String c s)).
Qed.

Lemma trimStart_allWhiteSpace :
  forall s, allWhiteSpace (trimStart s) = true -> allWhiteSpace s = true.
Proof.
  apply (string_length_ind
           (fun s => allWhiteSpace (trimStart s) = true -> allWhiteSpace s = true)).
  intros s IH. rewrite trimStart_unfold, (allWhiteSpace_unfold s).
  destruct s as [|a s1]; [reflexivity|].
  destruct (afterWhiteSpace (String a s1)) as [r|] eqn:Hr.
  - apply IH. now apply afterWhiteSpace_shorter.
  - rewrite allWhiteSpace_unfold, Hr. discriminate.
Qed.

Lemma allWhiteSpace_trimStart :
  forall s, allWhiteSpace s = true -> trimStart s = EmptyString.
Proof.
  apply (string_length_ind
           (fun s => allWhiteSpace s = true -> trimStart s = EmptyString)).
  intros s IH. rewrite trimStart_unfold, allWhiteSpace_unfold.
  destruct s as [|a s1]; [reflexivity|].
  destruct (afterWhiteSpace (String a s1)) as [r|] eqn:Hr; [|discriminate].
  apply IH. now apply afterWhiteSpace_shorter.
Qed.

Lemma allWhiteSpace_trim (s : string) :
  allWhiteSpace s = true -> trim s = EmptyString.
Proof.
  intro H. unfold trim. now rewrite (allWhiteSpace_trimStart s H).
Qed.

(** A text is trimmed to nothing exactly when it is made of white space
    characters alone. *)
Lemma trim_empty_iff (s : string) :
  trim s = EmptyString <-> allWhiteSpace s = true.
Proof.
  split; [|apply allWhiteSpace_trim].
  intro H. now apply trimStart_allWhiteSpace, trimEnd_empty.
Qed.

Lemma split_not_nil (sep : ascii) (s : string) : split sep s <> [].
Proof.
  destruct s as [|c s]; simpl; [discriminate|].
  destruct (Ascii.eqb c sep); [discriminate|].
  destruct (split sep s); discriminate.
Qed.

(** Splitting at a separator splits the array of fields. *)
Lemma split_app (sep : ascii) (a b : string) :
  split sep (a ++ String sep b) = split sep a ++ split sep b.
Proof.
  induction a as [|c a IH]; simpl.
  - now rewrite Ascii.eqb_refl.
  - destruct (Ascii.eqb c sep).
    + now rewrite IH.
    + rewrite IH. pose proof (split_not_nil sep a) as Hne.
      now destruct (split sep a).
Qed.

Lemma LF_low : nat_of_ascii LF < 128.
Proof. unfold LF. rewrite nat_ascii_embedding; lia. Qed.

Lemma split_cons_other (sep a : ascii) (s : string) :
  Ascii.eqb a sep = false ->
  exists p ps, split sep s = p :: ps /\ split sep (String a s) = String a p :: ps.
Proof.
  intro Ha. pose proof (split_not_nil sep s) as Hne.
  cbn [split]. rewrite Ha. destruct (split sep s) as [|p ps]; [easy|].
  now exists p, ps.
Qed.

(** The lines of a text of white space are of white space. *)
Lemma split_allWhiteSpace :
  forall s, allWhiteSpace s = true -> forallb allWhiteSpace (split LF s) = true.
Proof.
  apply (string_length_ind
           (fun s => allWhiteSpace s = true ->
                     forallb allWhiteSpace (split LF s) = true)).
  intros s IH. rewrite allWhiteSpace_unfold.
  destruct s as [|a0 s0]; [reflexivity|].
  destruct (afterWhiteSpace (String a0 s0)) as [r|] eqn:Hr; [|discriminate].
  intro Hall. pose proof (IH r (afterWhiteSpace_shorter _ _ Hr) Hall) as Hlines.
  destruct (afterWhiteSpace_cases _ _ Hr)
    as [(a & Hs & H1)|[(a & b & Hs & H1 & H2)|(a & b & c & Hs & H1 & H2 & H3)]];
    rewrite Hs.
  - destruct (Ascii.eqb a LF) eqn:Ha.
    + cbn [split]. rewrite Ha. exact Hlines.
    + destruct (split_cons_other LF a r Ha) as (p & ps & Hsplit & ->).
      rewrite Hsplit in Hlines. cbn [forallb] in *.
      apply andb_prop in Hlines. destruct Hlines as [Hp Hps].
      rewrite Hps, andb_true_r. cbn [allWhiteSpace]. now rewrite H1.
  - destruct (isWhiteSpace2_bytes a b H2) as [Ha Hb].
    destruct (split_cons_other LF b r (high_byte_differs b LF Hb LF_low))
      as (p & ps & Hsplit & Hsb).
    destruct (split_cons_other LF a (String b r)
                (high_byte_differs a LF Ha LF_low))
      as (p' & ps' & Hsplit' & ->).
    rewrite Hsb in Hsplit'. injection Hsplit' as <- <-.
    rewrite Hsplit in Hlines. cbn [forallb] in *.
    apply andb_prop in Hlines. destruct Hlines as [Hp Hps].
    rewrite Hps, andb_true_r. cbn [allWhiteSpace]. now rewrite H1, H2.
  - destruct (isWhiteSpace3_bytes a b c H3) as (Ha & Hb & Hc).
    destruct (split_cons_other LF c r (high_byte_differs c LF Hc LF_low))
      as (p & ps & Hsplit & Hsc).
    destruct (split_cons_other LF b (String c r)
                (high_byte_differs b LF Hb LF_low))
      as (p' & ps' & Hsplit' & Hsb).
    rewrite Hsc in Hsplit'. injection Hsplit' as <- <-.
    destruct (split_cons_other LF a (String b (String c r))
                (high_byte_differs a LF Ha LF_low))
      as (p'' & ps'' & Hsplit'' & ->).
    rewrite Hsb in Hsplit''. injection Hsplit'' as <- <-.
    rewrite Hsplit in Hlines. cbn [forallb] in *.
    apply andb_prop in Hlines. destruct Hlines as [Hp Hps].
    rewrite Hps, andb_true_r. cbn [allWhiteSpace]. now rewrite H1, H2, H3.
Qed.

Lemma filter_blank (l : list string) :
  forallb allWhiteSpace l = true ->
  filter (fun line => truthy (trim line)) l = [].
Proof.
  induction l as [|p ps IH]; simpl; [reflexivity|].
  intro H. apply andb_prop in H. destruct H as [Hp Hps].
  rewrite (allWhiteSpace_trim p Hp). simpl. now apply IH.
Qed.

Lemma nonBlankLines_blank (blank : string) :
  trim blank = EmptyString -> nonBlankLines blank = [].
Proof.
  intro H. apply trim_empty_iff in H.
  unfold nonBlankLines. now apply filter_blank, split_allWhiteSpace.
Qed.

Lemma nonBlankLines_app (a b : string) :
  nonBlankLines (a ++ String LF b) = nonBlankLines a ++ nonBlankLines b.
Proof.
  unfold nonBlankLines. now rewrite split_app, filter_app.
Qed.

(** The report is a function of the non-blank lines. *)
Lemma report_of_lines (text text' : string) :
  nonBlankLines text = nonBlankLines text' ->
  getEnhancedMockAnalysis text = getEnhancedMockAnalysis text'.
Proof.
  intro H. unfold getEnhancedMockAnalysis. now rewrite H.
Qed.

(** C10. Lines of white space alone do not count: with such a line put in
    between two parts of the text, before the text or after it, the
    non-blank lines, and so the sampling window, the Total Samples count
    and the whole report, are those of the text without it. *)
Theorem blank_lines_ignored (before after blank : string) :
  trim blank = EmptyString ->
  let nl := String LF EmptyString in
  (nonBlankLines (before ++ nl ++ blank ++ nl ++ after)
   = nonBlankLines (before ++ nl ++ after)
   /\ getEnhancedMockAnalysis (before ++ nl ++ blank ++ nl ++ after)
      = getEnhancedMockAnalysis (before ++ nl ++ after))
  /\ (nonBlankLines (blank ++ nl ++ after) = nonBlankLines after
      /\ getEnhancedMockAnalysis (blank ++ nl ++ after) = getEnhancedMockAnalysis after)
  /\ (nonBlankLines (before ++ nl ++ blank) = nonBlankLines before
      /\ getEnhancedMockAnalysis (before ++ nl ++ blank) = getEnhancedMockAnalysis before).
Proof.
  intros Hblank nl. subst nl.
  pose proof (nonBlankLines_blank blank Hblank) as Hnone.
  assert (H1 : nonBlankLines (before ++ String LF EmptyString ++ blank
                              ++ String LF EmptyString ++ after)
               = nonBlankLines (before ++ String LF EmptyString ++ after)).
  { cbn [append]. now rewrite !nonBlankLines_app, Hnone. }
  assert (H2 : nonBlankLines (blank ++ String LF EmptyString ++ after)
               = nonBlankLines after).
  { cbn [append]. now rewrite nonBlankLines_app, Hnone. }
  assert (H3 : nonBlankLines (before ++ String LF EmptyString ++ blank)
               = nonBlankLines before).
  { cbn [append]. now rewrite nonBlankLines_app, Hnone, app_nil_r. }
  repeat split; try assumption; now apply report_of_lines.
Qed.

Lemma blank_lines_ignored_witness :
  getEnhancedMockAnalysis
    ("Time,A" ++ String LF EmptyString ++ "   " ++ String LF EmptyString ++ "0,1")
  = getEnhancedMockAnalysis ("Time,A" ++ String LF EmptyString ++ "0,1")
  /\ getEnhancedMockAnalysis
       ("Time,A" ++ String LF EmptyString ++ (NBSP ++ " " ++ BOM)
        ++ String LF EmptyString ++ "0,1")
     = getEnhancedMockAnalysis ("Time,A" ++ String LF EmptyString ++ "0,1").
Proof.
  split.
  - exact (proj2 (proj1 (blank_lines_ignored "Time,A" "0,1" "   " eq_refl))).
  - exact (proj2 (proj1 (blank_lines_ignored "Time,A" "0,1" (NBSP ++ " " ++ BOM)
                           eq_refl))).
Defined.

(** *** Pin roles *)

Lemma ruleI2C_guess (digitalChannels : list channel) (guess : protocolGuess) :
  ruleI2C digitalChannels = Some guess -> guess = guessI2C.
Proof.
  unfold ruleI2C.
  destruct (length digitalChannels =? 2); [|discriminate].
  destruct (_ && _); [|discriminate].
  now intros [= <-].
Qed.

Lemma ruleSPI_guess (digitalChannels : list channel) (guess : protocolGuess) :
  ruleSPI digitalChannels = Some guess -> guess = guessSPI.
Proof.
  unfold ruleSPI.
  destruct (_ && _); [|discriminate].
  destruct (_ && _); [|discriminate].
  now intros [= <-].
Qed.

(** No role of a guess is the empty string. *)
Lemma pins_truthy (channels : list channel) (role : string) :
  In role (pins (detectProtocol channels)) -> truthy role = true.
Proof.
  unfold detectProtocol.
  destruct (ruleI2C _) as [g|] eqn:Hi2c.
  { rewrite (ruleI2C_guess _ _ Hi2c). simpl. intuition (subst; reflexivity). }
  destruct (ruleSPI _) as [g|] eqn:Hspi.
  { rewrite (ruleSPI_guess _ _ Hspi). simpl. intuition (subst; reflexivity). }
  unfold ruleRest, mapi.
  rewrite !(mapi_from_const (fun i => (_ ++ numToString i)%string)).
  destruct (_ || _); [simpl; intuition (subst; reflexivity)|].
  destruct (8 <? _); simpl; intro H; apply in_map_iff in H;
    now destruct H as (i & <- & _).
Qed.

(** The role printed for position [i]: [protocol.pins[i] || 'Data Line']
    when no role is the empty string. *)
Lemma role_at (channels : list channel) (i : nat) :
  orElse (nth_error (pins (detectProtocol channels)) i) "Data Line"
  = nth i (pins (detectProtocol channels)) "Data Line".
Proof.
  destruct (nth_error (pins (detectProtocol channels)) i) as [role|] eqn:Hnth.
  - rewrite (nth_error_nth _ _ _ Hnth). simpl.
    now rewrite (pins_truthy channels role (nth_error_In _ _ Hnth)).
  - simpl. apply nth_error_None in Hnth. now rewrite nth_overflow.
Qed.

(** C8, as stated, fails: the roles follow the position among all profiled
    channels, not among the digital ones.  Here the first digital channel is
    SCL and the first role is SDA (Data), yet that role is printed for the
    analog channel Vref, SCL is given the second role and SDA the fallback. *)
Lemma pin_roles_not_by_digital_position :
  let lines := nonBlankLines mixedCapture in
  let channels := analyzeChannels (headersOf lines) lines in
  let guess := detectProtocol channels in
  map name (filter isDigital channels) = ["SCL"; "SDA"]
  /\ pins guess = ["SDA (Data)"; "SCL (Clock)"]
  /\ mapi (pinLine guess) channels
     = [ "• Vref: SDA (Data) (Clock-like) (Data)";
         "• SCL: SCL (Clock) (Clock-like) (Data)";
         "• SDA: Data Line  (Data)" ]
  /\ mapi (pinLine guess) (filter isDigital channels)
     = [ "• SCL: SDA (Data) (Clock-like) (Data)";
         "• SDA: SCL (Clock)  (Data)" ]
  /\ (forall d, nth_error (filter isDigital channels) 0 = Some d ->
                ~ In (pinLine guess d 0) (mapi (pinLine guess) channels)).
Proof.
  vm_compute. repeat split.
  intros d [= <-]. intros [H|[H|[H|[]]]]; discriminate H.
Qed.

(** C8, amended. Under PIN MAPPING ANALYSIS the roles are given by position
    among all profiled channels, digital or not: the line of the channel at
    position [i] of the profile sequence carries the role at position [i] of
    the guess, or the fixed label Data Line past the last role, whatever the
    clock-like or data-like marks of that channel; when every profiled channel
    is digital, these are the digital channels in their order. *)
Theorem pin_roles_by_channel_position (csvContent : string) :
  let lines := nonBlankLines csvContent in
  let headers := headersOf lines in
  let channels := analyzeChannels headers lines in
  let guess := detectProtocol channels in
  getEnhancedMockAnalysis csvContent
  = join (String LF EmptyString)
      (reportHead (detectCSVFormat headers) lines headers channels guess
       ++ [join (String LF EmptyString) (mapi (pinLine guess) channels)]
       ++ [EmptyString; "SIGNAL CHARACTERISTICS:"; signalCharacteristics channels]
       ++ reportTail channels guess)
  /\ length (mapi (pinLine guess) channels) = length channels
  /\ (forall i ch,
         nth_error channels i = Some ch ->
         nth_error (mapi (pinLine guess) channels) i
         = Some ("• " ++ name ch ++ ": " ++ nth i (pins guess) "Data Line"
                 ++ " " ++ (if isClock ch then "(Clock-like)" else EmptyString)
                 ++ " " ++ (if isData ch then "(Data)" else EmptyString))%string)
  /\ (forallb isDigital channels = true -> filter isDigital channels = channels).
Proof.
  intros lines headers channels guess. repeat split.
  - apply mapi_from_length.
  - intros i ch Hnth. unfold mapi. rewrite mapi_from_nth_error, Hnth. simpl.
    unfold pinLine. subst guess. now rewrite role_at.
  - intro Hall. apply forallb_filter_id. exact Hall.
Qed.

(** ** The two server variants *)

(** C9, as stated, fails: the variant of [src/functions/server.js] knows
    two formats and three protocols only.  A header with a timestamp column
    is Digilent/WaveForms for [script.js] and Unknown for the variant, and
    a capture without channels is Unknown for [script.js] and UART/Serial
    for the variant. *)
Lemma server_variants_differ :
  (Script.detectCSVFormat ["timestamp"; "D0"]
   = {| format := "Digilent/WaveForms"; type := "digilent" |}
   /\ FunctionsServer.detectCSVFormat ["timestamp"; "D0"]
      = {| format := "Unknown"; type := "unknown" |})
  /\ (Script.detectProtocol []
      = {| protocol := "Unknown"; confidence := "Low"; pins := [] |}
      /\ FunctionsServer.detectProtocol [] = guessUART)
  /\ FunctionsServer.detectCSVFormat ["timestamp"; "D0"]
     <> Script.detectCSVFormat ["timestamp"; "D0"]
  /\ FunctionsServer.detectProtocol [] <> Script.detectProtocol [].
Proof.
  repeat split; try reflexivity; vm_compute; discriminate.
Qed.

(** C9, amended. The two files agree on [analyzeChannels] for every header
    and capture.  They agree on [detectCSVFormat] except where [script.js]
    answers Digilent/WaveForms or Generic/Raw, rules the variant lacks and
    answers Unknown for; and on [detectProtocol] except where [script.js]
    answers Parallel/Unknown or Unknown, for which the variant answers
    UART/Serial, Medium, TX, RX. *)
Theorem server_variants_agreement :
  (forall headers dataLines,
      FunctionsServer.analyzeChannels headers dataLines
      = Script.analyzeChannels headers dataLines)
  /\ (forall headers,
         FunctionsServer.detectCSVFormat headers
         = variantFormat (Script.detectCSVFormat headers))
  /\ (forall channels,
         FunctionsServer.detectProtocol channels
         = variantProtocol (Script.detectProtocol channels)).
Proof.
  split; [|split].
  - reflexivity.
  - intro headers.
    unfold FunctionsServer.detectCSVFormat, Script.detectCSVFormat.
    set (headerStr := toLowerCase (join "," headers)).
    destruct (includes headerStr "time" && includes headerStr "channel");
      [reflexivity|].
    destruct (includes headerStr "sample" || includes headerStr "logic");
      [reflexivity|].
    destruct (includes headerStr "timestamp" || includes headerStr "state");
      [reflexivity|].
    destruct (includes headerStr "tick" || includes headerStr "clk"); reflexivity.
  - intro channels.
    unfold FunctionsServer.detectProtocol, Script.detectProtocol.
    unfold ruleI2C, ruleSPI, ruleRest.
    set (digitalChannels := filter isDigital channels).
    destruct (Nat.eqb_spec (length digitalChannels) 2) as [Htwo|Hnot].
    + rewrite Htwo. simpl.
      destruct (existsb isClock digitalChannels
                && existsb (fun c => isData c && negb (isClock c)) digitalChannels);
        reflexivity.
    + destruct ((3 <=? length digitalChannels) && (length digitalChannels <=? 5)).
      * destruct ((1 <=? length (filter isClock digitalChannels))
                  && (2 <=? length (filter isData digitalChannels)));
          [reflexivity|].
        destruct (length digitalChannels =? 1); [reflexivity|].
        destruct (8 <? length digitalChannels); reflexivity.
      * destruct (length digitalChannels =? 1); [reflexivity|].
        destruct (8 <? length digitalChannels); reflexivity.
Qed.

(** ** Further properties of the code *)

(** *** Lines and fields *)

Lemma join_cons (sep x : string) (rest : list string) :
  rest <> [] -> join sep (x :: rest) = (x ++ sep ++ join sep rest)%string.
Proof.
  destruct rest; [easy|reflexivity].
Qed.

(** Joining what was split gives the text back. *)
Lemma join_split (sep : ascii) (s : string) :
  join (String sep EmptyString) (split sep s) = s.
Proof.
  induction s as [|c s IH]; [reflexivity|].
  simpl split. pose proof (split_not_nil sep s) as Hne.
  destruct (Ascii.eqb_spec c sep) as [->|Hc].
  - rewrite join_cons by exact Hne. simpl. now rewrite IH.
  - destruct (split sep s) as [|p ps]; [easy|].
    destruct ps as [|q qs].
    + simpl in *. now rewrite IH.
    + rewrite join_cons by discriminate.
      rewrite join_cons in IH by discriminate.
      simpl. simpl in IH. now rewrite IH.
Qed.

Lemma split_length (sep : ascii) (s : string) :
  length (split sep s) = S (countChar sep s).
Proof.
  induction s as [|c s IH]; [reflexivity|].
  simpl. destruct (Ascii.eqb c sep); simpl.
  - now rewrite IH.
  - destruct (split sep s); simpl in *; lia.
Qed.

Lemma split_without (sep : ascii) (s : string) :
  countChar sep s = 0 -> split sep s = [s].
Proof.
  induction s as [|c s IH]; [reflexivity|].
  simpl. destruct (Ascii.eqb c sep); [discriminate|].
  simpl. intro H. now rewrite (IH H).
Qed.

Lemma split_fields_without (sep : ascii) (s : string) :
  Forall (fun p => countChar sep p = 0) (split sep s).
Proof.
  induction s as [|c s IH]; simpl.
  - now constructor.
  - destruct (Ascii.eqb c sep) eqn:Hc.
    + now constructor.
    + destruct (split sep s) as [|p ps]; [now constructor; [simpl; rewrite Hc|]|].
      inversion IH; subst. constructor; [|assumption].
      simpl. now rewrite Hc.
Qed.

(** Splitting what was joined gives the lines back, when no line holds the
    separator and there is a line at all. *)
Lemma split_join (sep : ascii) (lines : list string) :
  lines <> [] ->
  Forall (fun p => countChar sep p = 0) lines ->
  split sep (join (String sep EmptyString) lines) = lines.
Proof.
  induction lines as [|x rest IH]; [easy|].
  intros _ Hall. inversion Hall as [|? ? Hx Hrest]; subst.
  destruct rest as [|y rest'].
  - simpl. now apply split_without.
  - rewrite join_cons by discriminate.
    change (x ++ String sep EmptyString ++ join (String sep EmptyString) (y :: rest'))%string
      with (x ++ String sep (join (String sep EmptyString) (y :: rest')))%string.
    rewrite split_app, (split_without sep x Hx).
    rewrite IH by (easy || assumption). reflexivity.
Qed.

Lemma append_assoc (a b c : string) :
  ((a ++ b) ++ c)%string = (a ++ b ++ c)%string.
Proof.
  induction a as [|x a IH]; simpl; [reflexivity|now rewrite IH].
Qed.

Lemma append_empty_r (a : string) : (a ++ EmptyString)%string = a.
Proof.
  induction a as [|x a IH]; simpl; [reflexivity|now rewrite IH].
Qed.

(** The first lines of a text, joined, begin the text. *)
Lemma join_firstn_prefix (sep : string) (lines : list string) :
  forall n, exists rest,
    join sep lines = (join sep (firstn n lines) ++ rest)%string.
Proof.
  induction lines as [|x l IH]; intro n.
  - exists EmptyString. now destruct n.
  - destruct n as [|n].
    + now exists (join sep (x :: l)).
    + simpl firstn. destruct l as [|y l'].
      * exists EmptyString. destruct n; simpl; now rewrite append_empty_r.
      * rewrite join_cons by discriminate.
        destruct (IH n) as [rest Hrest]. rewrite Hrest.
        destruct n as [|n].
        -- exists (sep ++ rest)%string. reflexivity.
        -- exists rest. rewrite join_cons by (simpl; discriminate).
           now rewrite !append_assoc.
Qed.

Lemma Forall_first {A} (P : A -> Prop) (a : list A) :
  Forall P a -> forall n, Forall P (firstn n a).
Proof.
  induction 1 as [|x l Hx Hl IH]; intros [|n]; simpl; constructor; auto.
Qed.

Lemma slice_from_start {A} (n : nat) (a : list A) :
  slice 0 n a = firstn n a.
Proof. reflexivity. Qed.

Lemma csvSample_firstn (csvContent : string) :
  Server.csvSample csvContent
  = join (String LF EmptyString) (firstn 50 (split LF csvContent)).
Proof.
  unfold Server.csvSample, Server.sampleLines.
  now rewrite slice_from_start, firstn_min_length.
Qed.

Lemma firstn_lines (n : nat) (csvContent : string) :
  split LF (join (String LF EmptyString) (firstn (S n) (split LF csvContent)))
  = firstn (S n) (split LF csvContent).
Proof.
  apply split_join.
  - pose proof (split_not_nil LF csvContent). now destruct (split LF csvContent).
  - apply Forall_first, split_fields_without.
Qed.

(** X1. The sample of the upload put in the prompt is a prefix of the
    upload, for the 50 lines of [/api/analyze] and for the 20 lines of
    [/api/quick-analyze]; sampling a sample changes nothing. *)
Theorem csvSample_prefix (csvContent : string) :
  (exists rest, csvContent = (Server.csvSample csvContent ++ rest)%string)
  /\ (exists rest, csvContent = (Server.quickSample csvContent ++ rest)%string)
  /\ Server.csvSample (Server.csvSample csvContent) = Server.csvSample csvContent
  /\ Server.quickSample (Server.quickSample csvContent) = Server.quickSample csvContent.
Proof.
  repeat split.
  - rewrite csvSample_firstn.
    destruct (join_firstn_prefix (String LF EmptyString) (split LF csvContent) 50)
      as [rest Hrest].
    exists rest. now rewrite <- Hrest, join_split.
  - unfold Server.quickSample. rewrite slice_from_start.
    destruct (join_firstn_prefix (String LF EmptyString) (split LF csvContent) 20)
      as [rest Hrest].
    exists rest. now rewrite <- Hrest, join_split.
  - rewrite !csvSample_firstn, firstn_lines, firstn_firstn. reflexivity.
  - unfold Server.quickSample. rewrite !slice_from_start, firstn_lines, firstn_firstn.
    reflexivity.
Qed.

(** X2. The lines of the sample are the first 50 lines of the upload (the
    first 20 for the quick analysis), there is at least one, and the number
    the prompt announces is the number of lines of the sample. *)
Theorem csvSample_lines (csvContent : string) :
  split LF (Server.csvSample csvContent) = firstn 50 (split LF csvContent)
  /\ split LF (Server.quickSample csvContent) = firstn 20 (split LF csvContent)
  /\ length (split LF (Server.csvSample csvContent))
     = Server.sampleLines (split LF csvContent)
  /\ 1 <= Server.sampleLines (split LF csvContent) <= 50.
Proof.
  assert (H50 : split LF (Server.csvSample csvContent) = firstn 50 (split LF csvContent))
    by (rewrite csvSample_firstn; apply firstn_lines).
  split; [exact H50|split; [|split]].
  - unfold Server.quickSample. rewrite slice_from_start. apply firstn_lines.
  - rewrite H50, length_firstn. reflexivity.
  - unfold Server.sampleLines. rewrite split_length. lia.
Qed.

(** X3. An upload of at most 50 lines goes into the prompt whole. *)
Theorem csvSample_short (csvContent : string) :
  length (split LF csvContent) <= 50 ->
  Server.csvSample csvContent = csvContent
  /\ Server.sampleLines (split LF csvContent) = length (split LF csvContent).
Proof.
  intro H. split.
  - rewrite csvSample_firstn, firstn_all2 by exact H. apply join_split.
  - unfold Server.sampleLines. lia.
Qed.

Lemma csvSample_short_witness :
  Server.csvSample "Time,A
0,1
1,0" = "Time,A
0,1
1,0".
Proof.
  apply (csvSample_short "Time,A
0,1
1,0"). vm_compute. lia.
Defined.

(** *** The report of [src/server.js] *)

Lemma channelCount_commas (csvContent : string) :
  Server.channelCount (split LF csvContent)
  = countChar comma (hd EmptyString (split LF csvContent)).
Proof.
  unfold Server.channelCount.
  pose proof (split_not_nil LF csvContent) as Hne.
  destruct (split LF csvContent) as [|line rest]; [easy|].
  simpl. rewrite split_length. lia.
Qed.

Lemma hasTimeColumn_first (csvContent : string) :
  Server.hasTimeColumn (split LF csvContent)
  = includes (hd EmptyString (split LF csvContent)) "Time"
    || includes (hd EmptyString (split LF csvContent)) "time".
Proof.
  unfold Server.hasTimeColumn.
  pose proof (split_not_nil LF csvContent) as Hne.
  now destruct (split LF csvContent) as [|line rest].
Qed.

(** X4. The report of [src/server.js], line by line: the total of lines it
    prints is one more than the number of line feeds of the upload, so
    never 0; the data channels it prints, twice, are as many as the commas
    of the first line; and under PIN MAPPING it lists one line for each,
    numbered from 0 with data lines numbered from 1. *)
Theorem server_report_counts (csvContent : string) :
  let firstLine := hd EmptyString (split LF csvContent) in
  let channels := countChar comma firstLine in
  let pinLines :=
    map (fun i => ("• Channel " ++ numToString i ++ ": Data line "
                   ++ numToString (i + 1))%string)
        (seq 0 channels) in
  Server.getEnhancedMockAnalysis csvContent
  = join (String LF EmptyString)
      [ "PULSEAI ANALYSIS REPORT";
        "==================================================";
        EmptyString;
        "FILE ANALYSIS:";
        "• Total lines: " ++ numToString (S (countChar LF csvContent));
        "• Data channels: " ++ numToString channels;
        "• Time data: "
        ++ (if includes firstLine "Time" || includes firstLine "time"
            then "Yes" else "No");
        EmptyString;
        "PROTOCOL ANALYSIS:";
        "• Most Likely: I2C or SPI communication";
        "• Channel usage: " ++ numToString channels ++ " active data lines";
        "• Pattern: Digital serial communication detected";
        EmptyString;
        "ESTIMATED DEVICES:";
        "• Primary: Microcontroller/master device";
        "• Secondary: Sensor or peripheral device(s)";
        EmptyString;
        "PIN MAPPING (ESTIMATED):";
        join (String LF EmptyString) pinLines;
        EmptyString;
        "RECOMMENDATIONS:";
        "1. Check signal timing and voltage levels";
        "2. Verify protocol settings match device requirements";
        "3. Use smaller CSV files for faster AI analysis";
        EmptyString;
        "NOTE: This is an enhanced analysis. For full AI analysis, the request timed out due to Render's 30-second limit on free tier. Consider:";
        "- Using smaller CSV files (< 1000 lines)";
        "- Upgrading to Render's paid plan for longer timeouts";
        "- Using the /api/quick-analyze endpoint for faster results" ]%string
  /\ length pinLines = channels
  /\ (forall i, i < channels ->
         nth_error pinLines i
         = Some ("• Channel " ++ numToString i ++ ": Data line "
                 ++ numToString (i + 1))%string).
Proof.
  intros firstLine channels pinLines. split; [|split].
  - unfold Server.getEnhancedMockAnalysis, Server.pinMapping.
    rewrite channelCount_commas, hasTimeColumn_first, split_length.
    reflexivity.
  - subst pinLines. now rewrite length_map, length_seq.
  - intros i Hi. subst pinLines.
    rewrite nth_error_map, nth_error_seq.
    destruct (Nat.ltb_spec i channels); [reflexivity|lia].
Qed.

(** *** The analysis without an API key *)

(** X5. Without an API key the three servers part ways.  In
    [src/server.js] and in [script.js] [callDeepSeekAPI] returns the mock
    report of the empty string, the handler takes it for the answer of the
    service, and the upload is not looked at; in [src/functions/server.js]
    the missing key is an exception, and the answer is the mock report of
    the upload, marked as such. *)
Theorem no_api_key_analysis (key : option string) (post : string -> N -> apiOutcome)
    (csvContent originalname : string) (size : N) :
  falsy key = true ->
  Server.analysisOf key post csvContent
  = (Server.getEnhancedMockAnalysis EmptyString, "deepseek")
  /\ Server.quickAnalysisOf key post csvContent originalname size
     = Server.getEnhancedMockAnalysis EmptyString
  /\ ScriptUpload.analysisOf key post csvContent = (emptyReport, "deepseek")
  /\ FunctionsUpload.analysisOf key post csvContent
     = (FunctionsUpload.getEnhancedMockAnalysis csvContent, "mock").
Proof.
  intro Hkey.
  unfold Server.analysisOf, Server.quickAnalysisOf, ScriptUpload.analysisOf,
    FunctionsUpload.analysisOf, FunctionsUpload.callApi, callDeepSeekAPI.
  rewrite Hkey. repeat split; reflexivity.
Qed.

Lemma no_api_key_analysis_witness :
  ScriptUpload.analysisOf None (fun _ _ => Content "I2C at 100 kHz") "Time,SCL,SDA"
  = (emptyReport, "deepseek")
  /\ FunctionsUpload.analysisOf (Some EmptyString) (fun _ _ => Content "I2C at 100 kHz")
       "Time,SCL,SDA"
     = (FunctionsUpload.getEnhancedMockAnalysis "Time,SCL,SDA", "mock").
Proof.
  split.
  - exact (proj1 (proj2 (proj2
      (no_api_key_analysis None (fun _ _ => Content "I2C at 100 kHz")
         "Time,SCL,SDA" EmptyString 0%N eq_refl)))).
  - exact (proj2 (proj2 (proj2
      (no_api_key_analysis (Some EmptyString) (fun _ _ => Content "I2C at 100 kHz")
         "Time,SCL,SDA" EmptyString 0%N eq_refl)))).
Defined.

(** *** The counts of a profile *)

Lemma filteri_changes (rest : list string) :
  forall (pre : list string) (x : string),
    length (filteri_from (S (length pre))
              (fun val i =>
                 (0 <? i) && strictNeq val (nth_error (pre ++ x :: rest) (i - 1)))
              rest)
    = changes (x :: rest).
Proof.
  induction rest as [|y rest IH]; intros pre x; [reflexivity|].
  set (p := fun val i =>
              (0 <? i) && strictNeq val (nth_error (pre ++ x :: y :: rest) (i - 1))).
  assert (Hp : p y (S (length pre)) = negb (String.eqb y x)).
  { unfold p. replace (S (length pre) - 1) with (length pre) by lia.
    rewrite nth_error_app2, Nat.sub_diag by lia. reflexivity. }
  assert (Hrest : length (filteri_from (S (S (length pre))) p rest)
                  = changes (y :: rest)).
  { specialize (IH (pre ++ [x]) y).
    rewrite length_app, Nat.add_1_r, <- app_assoc in IH. exact IH. }
  change (filteri_from (S (length pre)) p (y :: rest))
    with (if p y (S (length pre))
          then y :: filteri_from (S (S (length pre))) p rest
          else filteri_from (S (S (length pre))) p rest).
  change (changes (x :: y :: rest))
    with ((if String.eqb y x then 0 else 1) + changes (y :: rest)).
  rewrite Hp. destruct (String.eqb y x); simpl negb; cbv iota;
    cbn [length]; rewrite Hrest; reflexivity.
Qed.

(** The filter of line 930 counts the changes between neighbours. *)
Lemma countTransitions_changes (data : list string) :
  countTransitions data = changes data.
Proof.
  unfold countTransitions, filteri.
  destruct data as [|x rest]; [reflexivity|].
  cbn [filteri_from Nat.ltb Nat.leb andb].
  exact (filteri_changes rest [] x).
Qed.

Lemma changes_bound (data : list string) :
  changes data <= length data - 1.
Proof.
  induction data as [|x rest IH]; [reflexivity|].
  cbn [changes]. destruct rest as [|y rest']; [simpl; lia|].
  cbn [length] in *. destruct (String.eqb y x); lia.
Qed.

Lemma has_last (x y : string) (seen : list string) :
  has x (seen ++ [y]) = has x seen || String.eqb x y.
Proof.
  induction seen as [|z seen IH]; simpl.
  - now rewrite orb_false_r.
  - now rewrite IH, orb_assoc.
Qed.

Lemma has_refl_last (y : string) (seen : list string) :
  has y (if has y seen then seen else seen ++ [y]) = true.
Proof.
  destruct (has y seen) eqn:H; [exact H|].
  now rewrite has_last, String.eqb_refl, orb_true_r.
Qed.

Lemma setAddAll_keeps (a : list string) :
  forall seen x, has x seen = true -> has x (setAddAll seen a) = true.
Proof.
  induction a as [|y a IH]; intros seen x H; [exact H|].
  simpl. apply IH. destruct (has y seen); [exact H|].
  now rewrite has_last, H.
Qed.

Lemma setAddAll_holds (a : list string) :
  forall seen x, In x a -> has x (setAddAll seen a) = true.
Proof.
  induction a as [|y a IH]; intros seen x Hin; [easy|].
  simpl. destruct Hin as [->|Hin].
  - apply setAddAll_keeps, has_refl_last.
  - now apply IH.
Qed.

(** Values met again add nothing; a new value adds one. *)
Lemma setAddAll_changes (rest : list string) :
  forall (seen : list string) (x : string),
    has x seen = true ->
    length (setAddAll seen rest) <= length seen + changes (x :: rest).
Proof.
  induction rest as [|y rest IH]; intros seen x Hx.
  - simpl. lia.
  - cbn [setAddAll].
    change (changes (x :: y :: rest))
      with ((if String.eqb y x then 0 else 1) + changes (y :: rest)).
    pose proof (IH _ y (has_refl_last y seen)) as Hy.
    destruct (String.eqb_spec y x) as [->|Hne].
    + rewrite Hx in *. lia.
    + destruct (has y seen); [lia|].
      rewrite length_app in Hy. cbn [length] in Hy. lia.
Qed.

Lemma countUnique_changes (data : list string) :
  countUnique data <= changes data + 1.
Proof.
  unfold countUnique, newSet. destruct data as [|x rest]; [simpl; lia|].
  cbn [setAddAll has].
  pose proof (setAddAll_changes rest [x] x) as H.
  simpl in H. rewrite String.eqb_refl in H. specialize (H eq_refl).
  simpl. lia.
Qed.

Lemma countUnique_length (data : list string) :
  countUnique data <= length data.
Proof.
  pose proof (countUnique_changes data) as Hu.
  pose proof (changes_bound data) as Hc.
  destruct data as [|x rest]; [reflexivity|].
  cbn [length] in *. lia.
Qed.

Lemma has_two (x y : string) (l : list string) :
  has x l = true -> has y l = true -> x <> y -> 2 <= length l.
Proof.
  intros Hx Hy Hne. destruct l as [|a [|b l]]; simpl in *; try lia; try discriminate.
  rewrite orb_false_r in *.
  apply String.eqb_eq in Hx, Hy. congruence.
Qed.

Lemma changes_two (data : list string) :
  0 < changes data -> exists x y, In x data /\ In y data /\ x <> y.
Proof.
  induction data as [|x rest IH]; [simpl; lia|].
  cbn [changes]. destruct rest as [|y rest']; [lia|].
  destruct (String.eqb_spec y x) as [->|Hne].
  - intro H. destruct (IH H) as (a & b & Ha & Hb & Hab).
    exists a, b. simpl in *. tauto.
  - intros _. exists y, x. simpl. tauto.
Qed.

Lemma countUnique_two (data : list string) :
  0 < changes data -> 2 <= countUnique data.
Proof.
  intro H. destruct (changes_two data H) as (x & y & Hx & Hy & Hne).
  unfold countUnique, newSet.
  apply (has_two x y); [now apply setAddAll_holds..|exact Hne].
Qed.

Lemma channelData_length (dataLines : list string) (index : nat) :
  length (channelData dataLines index) <= Nat.min 19 (length dataLines - 1).
Proof.
  rewrite channelData_rows, length_map, length_firstn.
  destruct dataLines as [|header rows]; cbn [tl length]; lia.
Qed.

Lemma profiled_from_In (dataLines headers : list string) (p : channel) :
  forall i, In p (profiled_from dataLines i headers) ->
            exists header index, p = profile dataLines header index.
Proof.
  unfold profiled_from.
  induction headers as [|header rest IH]; intros i Hin; [easy|].
  cbn [mapi_from concat] in Hin. apply in_app_or in Hin.
  destruct Hin as [Hin|Hin]; [|now apply (IH (S i))].
  destruct (isTimeColumn header i); [easy|].
  destruct Hin as [<-|[]]. now exists header, i.
Qed.

(** Every profile of [analyzeChannels] is the profile of a column. *)
Lemma analyzeChannels_In (headers dataLines : list string) (p : channel) :
  In p (analyzeChannels headers dataLines) ->
  exists header index, p = profile dataLines header index.
Proof.
  rewrite analyzeChannels_profiled. apply profiled_from_In.
Qed.

(** X6. In every profile the distinct values are at most one more than the
    transitions; a profile has at most 18 transitions and 19 distinct
    values, and none of either beyond the number of data rows; it has no
    transition exactly when it has at most one distinct value. *)
Theorem profile_counts (headers dataLines : list string) (p : channel) :
  In p (analyzeChannels headers dataLines) ->
  uniqueValues p <= transitions p + 1
  /\ transitions p <= 18
  /\ uniqueValues p <= 19
  /\ uniqueValues p <= length dataLines - 1
  /\ (transitions p = 0 <-> uniqueValues p <= 1).
Proof.
  intro Hin. destruct (analyzeChannels_In _ _ _ Hin) as (header & index & ->).
  cbn [uniqueValues transitions profile].
  set (data := channelData dataLines index).
  pose proof (channelData_length dataLines index) as Hlen. fold data in Hlen.
  pose proof (countUnique_changes data) as Hu.
  pose proof (changes_bound data) as Hc.
  pose proof (countUnique_two data) as Htwo.
  rewrite countTransitions_changes.
  pose proof (countUnique_length data) as Hul.
  repeat split; lia.
Qed.

Lemma profile_counts_witness :
  uniqueValues (profile i2cCapture "SDA" 2) <= transitions (profile i2cCapture "SDA" 2) + 1
  /\ transitions (profile i2cCapture "SCL" 1) <= 18.
Proof.
  split.
  - apply (profile_counts ["Time"; "SCL"; "SDA"] i2cCapture (profile i2cCapture "SDA" 2)).
    simpl. auto.
  - apply (profile_counts ["Time"; "SCL"; "SDA"] i2cCapture (profile i2cCapture "SCL" 1)).
    simpl. auto.
Defined.

Lemma profile_transitions_rows (dataLines : list string) (header : string) (index : nat) :
  transitions (profile dataLines header index) <= length dataLines - 2.
Proof.
  cbn [transitions profile]. rewrite countTransitions_changes.
  pose proof (changes_bound (channelData dataLines index)).
  pose proof (channelData_length dataLines index). lia.
Qed.

Lemma profile_unique_rows (dataLines : list string) (header : string) (index : nat) :
  uniqueValues (profile dataLines header index) <= length dataLines - 1.
Proof.
  cbn [uniqueValues profile].
  pose proof (countUnique_length (channelData dataLines index)).
  pose proof (channelData_length dataLines index). lia.
Qed.

(** X7. The marks of a profile follow its counts: a channel is neither
    clock-like nor data-like exactly when its column is constant over the
    window, so every channel that is not digital is clock-like or data-like;
    a clock-like channel needs at least 7 data rows and a channel that is
    not digital at least 5. *)
Theorem profile_marks (headers dataLines : list string) (p : channel) :
  In p (analyzeChannels headers dataLines) ->
  (isClock p || isData p = false <-> uniqueValues p <= 1)
  /\ (isDigital p = false -> isClock p = true \/ isData p = true)
  /\ (isClock p = true -> 8 <= length dataLines)
  /\ (isDigital p = false -> 6 <= length dataLines).
Proof.
  intro Hin.
  destruct (profile_counts headers dataLines p Hin) as (Hu & _ & _ & _ & Hzero).
  destruct (analyzeChannels_In _ _ _ Hin) as (header & index & ->).
  pose proof (profile_transitions_rows dataLines header index) as Ht.
  pose proof (profile_unique_rows dataLines header index) as Hr.
  set (q := profile dataLines header index) in *.
  assert (Hclock : isClock q = (5 <? transitions q)) by reflexivity.
  assert (Hdata : isData q = ((0 <? transitions q) && (transitions q <=? 10)))
    by reflexivity.
  assert (Hdig : isDigital q = (uniqueValues q <=? 4)) by reflexivity.
  rewrite Hclock, Hdata, Hdig.
  destruct (Nat.ltb_spec 5 (transitions q)), (Nat.ltb_spec 0 (transitions q)),
    (Nat.leb_spec (transitions q) 10), (Nat.leb_spec (uniqueValues q) 4);
    cbv [orb andb]; repeat split; intros; try discriminate; try lia; auto.
Qed.

Lemma profile_marks_witness :
  isClock (profile i2cCapture "SCL" 1) = true /\ 8 <= length i2cCapture.
Proof.
  split; [reflexivity|].
  apply (profile_marks ["Time"; "SCL"; "SDA"] i2cCapture (profile i2cCapture "SCL" 1));
    [simpl; auto|reflexivity].
Defined.

Lemma no_clock (channels : list channel) :
  (forall p, In p channels -> isClock p = false) ->
  existsb isClock (filter isDigital channels) = false
  /\ filter isClock (filter isDigital channels) = [].
Proof.
  intro H. induction channels as [|c rest IH]; [now split|].
  assert (Hc : isClock c = false) by (apply H; now left).
  destruct IH as [IH1 IH2]; [intros p Hp; apply H; now right|].
  simpl. destruct (isDigital c); simpl; rewrite ?Hc; now split.
Qed.

(** X8. A capture of at most 7 lines, the header and six data rows, has no
    clock-like channel, so [detectProtocol] never answers I2C or SPI for
    it, nor any guess of confidence High. *)
Theorem short_capture_guess (headers dataLines : list string) :
  length dataLines <= 7 ->
  let channels := analyzeChannels headers dataLines in
  (forall p, In p channels -> isClock p = false)
  /\ detectProtocol channels = ruleRest (filter isDigital channels)
  /\ protocol (detectProtocol channels) <> "I2C"
  /\ protocol (detectProtocol channels) <> "SPI"
  /\ confidence (detectProtocol channels) <> "High".
Proof.
  intros Hlen channels.
  assert (Hnone : forall p, In p channels -> isClock p = false).
  { intros p Hin. destruct (analyzeChannels_In _ _ _ Hin) as (header & index & ->).
    pose proof (profile_transitions_rows dataLines header index) as Ht.
    change (isClock (profile dataLines header index))
      with (5 <? transitions (profile dataLines header index)).
    apply Nat.ltb_ge. lia. }
  destruct (no_clock channels Hnone) as [Hex Hfil].
  assert (Hrest : detectProtocol channels = ruleRest (filter isDigital channels)).
  { unfold detectProtocol, ruleI2C, ruleSPI. rewrite Hex, Hfil.
    destruct (length (filter isDigital channels) =? 2);
      destruct ((3 <=? length (filter isDigital channels))
                && (length (filter isDigital channels) <=? 5)); reflexivity. }
  split; [exact Hnone|split; [exact Hrest|]].
  rewrite Hrest. unfold ruleRest.
  destruct (_ || _); [repeat split; discriminate|].
  destruct (8 <? _); repeat split; discriminate.
Qed.

Lemma short_capture_guess_witness :
  detectProtocol (analyzeChannels ["Time"; "SCL"; "SDA"] sixRows) = guessUART.
Proof.
  rewrite (proj1 (proj2 (short_capture_guess ["Time"; "SCL"; "SDA"] sixRows
                           ltac:(simpl; lia)))).
  reflexivity.
Defined.

(** *** What the guess depends on *)

(** The guess is a function of five numbers of the digital channels. *)
Lemma detectProtocol_by_counts (channels channels' : list channel) :
  let d := filter isDigital channels in
  let d' := filter isDigital channels' in
  length d = length d' ->
  existsb isClock d = existsb isClock d' ->
  existsb (fun c => isData c && negb (isClock c)) d
  = existsb (fun c => isData c && negb (isClock c)) d' ->
  length (filter isClock d) = length (filter isClock d') ->
  length (filter isData d) = length (filter isData d') ->
  detectProtocol channels = detectProtocol channels'.
Proof.
  intros d d' Hlen Hclk Hdat Hnclk Hndat.
  unfold detectProtocol, ruleI2C, ruleSPI, ruleRest, mapi.
  fold d d'.
  rewrite !(mapi_from_const (fun i => (_ ++ numToString i)%string)).
  now rewrite Hlen, Hclk, Hdat, Hnclk, Hndat.
Qed.

Lemma filter_Permutation {A} (p : A -> bool) (l l' : list A) :
  Permutation l l' -> Permutation (filter p l) (filter p l').
Proof.
  induction 1 as [|x l l' _ IH|x y l|l l' l'' _ IH1 _ IH2]; simpl.
  - constructor.
  - destruct (p x); [now constructor|exact IH].
  - destruct (p x), (p y); try reflexivity. constructor.
  - now transitivity (filter p l').
Qed.

Lemma existsb_Permutation {A} (p : A -> bool) (l l' : list A) :
  Permutation l l' -> existsb p l = existsb p l'.
Proof.
  induction 1 as [|x l l' _ IH|x y l|l l' l'' _ IH1 _ IH2]; simpl.
  - reflexivity.
  - now rewrite IH.
  - destruct (p x), (p y); reflexivity.
  - now rewrite IH1.
Qed.

(** X9. The guess does not depend on the order of the channels: two
    profile sequences that are permutations of one another get the same
    protocol, confidence and pin roles. *)
Theorem detectProtocol_order (channels channels' : list channel) :
  Permutation channels channels' ->
  detectProtocol channels = detectProtocol channels'.
Proof.
  intro Hperm.
  pose proof (filter_Permutation isDigital _ _ Hperm) as Hd.
  apply detectProtocol_by_counts.
  - now apply Permutation_length.
  - now apply existsb_Permutation.
  - now apply existsb_Permutation.
  - now apply Permutation_length, filter_Permutation.
  - now apply Permutation_length, filter_Permutation.
Qed.

Lemma detectProtocol_order_witness :
  detectProtocol (rev spiChannels) = guessSPI.
Proof.
  rewrite <- (detectProtocol_order spiChannels (rev spiChannels)
                (Permutation_rev spiChannels)).
  reflexivity.
Defined.

Lemma filter_marksOnly (p : channel -> bool) (l : list channel) :
  (forall c, p (marksOnly c) = p c) ->
  filter p (map marksOnly l) = map marksOnly (filter p l).
Proof.
  intro Hp. induction l as [|c l IH]; simpl; [reflexivity|].
  rewrite Hp. destruct (p c); simpl; now rewrite IH.
Qed.

Lemma existsb_marksOnly (p : channel -> bool) (l : list channel) :
  (forall c, p (marksOnly c) = p c) ->
  existsb p (map marksOnly l) = existsb p l.
Proof.
  intro Hp. induction l as [|c l IH]; simpl; [reflexivity|].
  now rewrite Hp, IH.
Qed.

Lemma detectProtocol_marksOnly (channels : list channel) :
  detectProtocol (map marksOnly channels) = detectProtocol channels.
Proof.
  apply detectProtocol_by_counts;
    rewrite ?(filter_marksOnly isDigital) by reflexivity.
  - apply length_map.
  - now apply existsb_marksOnly.
  - now apply existsb_marksOnly.
  - rewrite (filter_marksOnly isClock) by reflexivity. apply length_map.
  - rewrite (filter_marksOnly isData) by reflexivity. apply length_map.
Qed.

Lemma marksOnly_marks (c c' : channel) :
  marks c = marks c' -> marksOnly c = marksOnly c'.
Proof.
  unfold marks, marksOnly. now intros [= -> -> ->].
Qed.

(** X10. The guess reads the three marks of each channel and nothing
    else: neither the names, nor the column indices, nor the counts behind
    the marks change it. *)
Theorem detectProtocol_marks (channels channels' : list channel) :
  map marks channels = map marks channels' ->
  detectProtocol channels = detectProtocol channels'.
Proof.
  intro H.
  rewrite <- (detectProtocol_marksOnly channels), <- (detectProtocol_marksOnly channels').
  f_equal. revert channels' H.
  induction channels as [|c l IH]; intros [|c' l'] H; try discriminate; [reflexivity|].
  simpl in H.
  assert (Hc : marks c = marks c') by congruence.
  assert (Hl : map marks l = map marks l') by congruence.
  simpl. now rewrite (IH _ Hl), (marksOnly_marks _ _ Hc).
Qed.

Lemma detectProtocol_marks_witness :
  detectProtocol
    [ mkChannel "a" 7 4 9 true false true; mkChannel "b" 8 3 6 true true true ]
  = guessI2C.
Proof.
  rewrite (detectProtocol_marks
             [ mkChannel "a" 7 4 9 true false true;
               mkChannel "b" 8 3 6 true true true ]
             [ mkChannel "SDA" 1 2 3 true false true;
               mkChannel "SCL" 2 2 10 true true true ] eq_refl).
  reflexivity.
Defined.

(** X11. Each answer of [detectProtocol] has its exact condition on the
    digital channels, [n] of them: I2C when the I2C block applies; SPI when
    the SPI block applies; UART/Serial when [n] is 1 or 2 and the I2C block
    does not apply; Parallel/Unknown when [n] exceeds 8; Unknown when [n]
    is 0 or from 3 to 8 and the SPI block does not apply.  The confidence is
    High for I2C and SPI alone, and there are two pin roles, four for SPI,
    and [n] for the last two answers. *)
Theorem detectProtocol_answers (channels : list channel) :
  let d := filter isDigital channels in
  let g := detectProtocol channels in
  (protocol g = "I2C" <-> i2cShape d = true)
  /\ (protocol g = "SPI" <-> spiShape d = true)
  /\ (protocol g = "UART/Serial"
      <-> (length d = 1 \/ length d = 2) /\ i2cShape d = false)
  /\ (protocol g = "Parallel/Unknown" <-> 8 < length d)
  /\ (protocol g = "Unknown"
      <-> length d = 0 \/ (3 <= length d <= 8 /\ spiShape d = false))
  /\ (confidence g = "High" <-> i2cShape d = true \/ spiShape d = true)
  /\ length (pins g)
     = (if i2cShape d then 2
        else if spiShape d then 4
        else if (length d =? 1) || (length d =? 2) then 2 else length d).
Proof.
  intros d g. subst g.
  unfold detectProtocol, ruleI2C, ruleSPI, ruleRest, i2cShape, spiShape, mapi.
  fold d. rewrite !(mapi_from_const (fun i => (_ ++ numToString i)%string)).
  set (n := length d).
  set (hasClock := existsb isClock d).
  set (hasData := existsb (fun c => isData c && negb (isClock c)) d).
  set (clockLike := length (filter isClock d)).
  set (dataLike := length (filter isData d)).
  destruct (Nat.eqb_spec n 2) as [H2|H2], (Nat.leb_spec 3 n) as [H3|H3],
    (Nat.leb_spec n 5) as [H5|H5], (Nat.eqb_spec n 1) as [H1|H1],
    (Nat.ltb_spec 8 n) as [H8|H8]; try lia;
    destruct hasClock, hasData, (1 <=? clockLike), (2 <=? dataLike);
    cbv [andb orb]; cbn [protocol confidence pins];
    rewrite ?length_map, ?length_seq; cbn [length];
    repeat split; intros; try discriminate; try lia; try reflexivity;
    try (intuition (discriminate || lia)).
Qed.

(** *** What the format guess depends on *)

Lemma toLowerCase_append (a b : string) :
  toLowerCase (a ++ b) = (toLowerCase a ++ toLowerCase b)%string.
Proof.
  induction a as [|c a IH]; simpl; [reflexivity|now rewrite IH].
Qed.

Lemma toLowerCase_join (headers : list string) :
  toLowerCase (join "," headers) = join "," (map toLowerCase headers).
Proof.
  induction headers as [|x rest IH]; [reflexivity|].
  destruct rest as [|y rest']; [reflexivity|].
  rewrite join_cons by discriminate.
  change (map toLowerCase (x :: y :: rest'))
    with (toLowerCase x :: map toLowerCase (y :: rest')).
  rewrite (join_cons "," (toLowerCase x) (map toLowerCase (y :: rest')))
    by (simpl; discriminate).
  now rewrite !toLowerCase_append, IH.
Qed.

(** A word without the separator cannot start across it. *)
Lemma startsWith_app_sep (sep : ascii) (b : string) (a : string) :
  forall needle,
    countChar sep needle = 0 ->
    startsWith (a ++ String sep b) needle = startsWith a needle.
Proof.
  induction a as [|x a IH]; intros [|c needle] Hn; try reflexivity.
  - simpl in *. destruct (Ascii.eqb c sep); [discriminate|reflexivity].
  - simpl in *. destruct (Ascii.eqb c sep); [discriminate|].
    now rewrite IH.
Qed.

Lemma includes_app_sep (sep : ascii) (a b needle : string) :
  countChar sep needle = 0 ->
  includes (a ++ String sep b) needle = includes a needle || includes b needle.
Proof.
  intro Hn. induction a as [|x a IH].
  - change (EmptyString ++ String sep b)%string with (String sep b).
    cbn [includes].
    rewrite <- (startsWith_app_sep sep b EmptyString needle Hn).
    cbn [append]. now rewrite orb_false_r.
  - change (String x a ++ String sep b)%string with (String x (a ++ String sep b)).
    cbn [includes]. rewrite IH.
    change (String x (a ++ String sep b)) with (String x a ++ String sep b)%string.
    rewrite (startsWith_app_sep sep b (String x a) needle Hn).
    now rewrite orb_assoc.
Qed.

(** A word without a comma is in the joined header exactly when it is in
    one of the tokens. *)
Lemma includes_join (headers : list string) (needle : string) :
  countChar comma needle = 0 ->
  truthy needle = true ->
  includes (join "," headers) needle
  = existsb (fun header => includes header needle) headers.
Proof.
  intros Hn Ht. induction headers as [|x rest IH].
  - now destruct needle.
  - destruct rest as [|y rest'].
    + simpl. now rewrite orb_false_r.
    + rewrite join_cons by discriminate.
      change (x ++ "," ++ join "," (y :: rest'))%string
        with (x ++ String comma (join "," (y :: rest')))%string.
      rewrite (includes_app_sep comma _ _ _ Hn), IH. reflexivity.
Qed.

Lemma existsb_mapped {A B} (p : B -> bool) (f : A -> B) (l : list A) :
  existsb p (map f l) = existsb (fun x => p (f x)) l.
Proof.
  induction l as [|x l IH]; simpl; [reflexivity|now rewrite IH].
Qed.

Lemma headerStr_has (headers : list string) (needle : string) :
  countChar comma needle = 0 ->
  truthy needle = true ->
  includes (toLowerCase (join "," headers)) needle = headerHas headers needle.
Proof.
  intros Hn Ht. rewrite toLowerCase_join, (includes_join _ _ Hn Ht).
  unfold headerHas. now rewrite existsb_mapped.
Qed.

(** X12. [detectCSVFormat] sees a word only inside one header token: its
    rules are those of the source with every test read as: some token, in
    lower case, contains the word.  A word that would run across the comma
    between two columns is not seen. *)
Theorem detectCSVFormat_tokens (headers : list string) :
  Script.detectCSVFormat headers =
    if headerHas headers "time" && headerHas headers "channel" then
      {| format := "Saleae Logic"; type := "standard" |}
    else if headerHas headers "sample" || headerHas headers "logic" then
      {| format := "PulseView/Sigrok"; type := "open_source" |}
    else if headerHas headers "timestamp" || headerHas headers "state" then
      {| format := "Digilent/WaveForms"; type := "digilent" |}
    else if headerHas headers "tick" || headerHas headers "clk" then
      {| format := "Generic/Raw"; type := "raw" |}
    else
      {| format := "Unknown"; type := "unknown" |}.
Proof.
  unfold Script.detectCSVFormat.
  now rewrite !headerStr_has by reflexivity.
Qed.

Lemma headerHas_tokens (headers headers' : list string) (needle : string) :
  map toLowerCase headers = map toLowerCase headers' ->
  headerHas headers needle = headerHas headers' needle.
Proof.
  intro H. unfold headerHas.
  rewrite <- (existsb_mapped (fun h => includes h needle) toLowerCase headers).
  rewrite <- (existsb_mapped (fun h => includes h needle) toLowerCase headers').
  now rewrite H.
Qed.

Lemma detectCSVFormat_by_has (headers headers' : list string) :
  (forall needle, headerHas headers needle = headerHas headers' needle) ->
  Script.detectCSVFormat headers = Script.detectCSVFormat headers'.
Proof.
  intro H. unfold Script.detectCSVFormat.
  rewrite !headerStr_has by reflexivity. now rewrite !H.
Qed.

(** X13. The format guess ignores the case of the letters A to Z of the
    header: two headers that agree once their capitals A to Z are replaced
    by a to z, which is what [toLowerCase] does here, get the same guess. *)
Theorem detectCSVFormat_case (headers headers' : list string) :
  map toLowerCase headers = map toLowerCase headers' ->
  Script.detectCSVFormat headers = Script.detectCSVFormat headers'.
Proof.
  intro H. apply detectCSVFormat_by_has.
  intro needle. now apply headerHas_tokens.
Qed.

Lemma detectCSVFormat_case_witness :
  Script.detectCSVFormat ["TIME [S]"; "Channel 0"]
  = {| format := "Saleae Logic"; type := "standard" |}.
Proof.
  rewrite (detectCSVFormat_case ["TIME [S]"; "Channel 0"] ["time [s]"; "channel 0"]
             eq_refl).
  reflexivity.
Defined.

(** X14. The format guess ignores the order of the columns. *)
Theorem detectCSVFormat_order (headers headers' : list string) :
  Permutation headers headers' ->
  Script.detectCSVFormat headers = Script.detectCSVFormat headers'.
Proof.
  intro H. apply detectCSVFormat_by_has.
  intro needle. unfold headerHas. now apply existsb_Permutation.
Qed.

Lemma detectCSVFormat_order_witness :
  Script.detectCSVFormat ["D0"; "logic"; "t"]
  = Script.detectCSVFormat ["t"; "D0"; "logic"].
Proof.
  apply (detectCSVFormat_order ["D0"; "logic"; "t"] ["t"; "D0"; "logic"]).
  apply Permutation_sym, (Permutation_cons_app ["D0"; "logic"] [] "t").
  reflexivity.
Defined.

(** *** The token of a request *)

Lemma split_two (sep : ascii) (a b : string) :
  countChar sep a = 0 ->
  split sep (a ++ String sep b) = a :: split sep b.
Proof.
  intro Ha. now rewrite split_app, (split_without sep a Ha).
Qed.

Lemma truthy_app_sep (a b : string) (sep : ascii) :
  truthy (a ++ String sep b) = true.
Proof. now destruct a. Qed.

Lemma tokenOf_second (scheme rest : string) :
  countChar space scheme = 0 ->
  FunctionsAuth.tokenOf (Some (scheme ++ String space rest)%string)
  = Some (hd EmptyString (split space rest)).
Proof.
  intro Hs. unfold FunctionsAuth.tokenOf. rewrite truthy_app_sep.
  fold space. rewrite (split_two space scheme rest Hs).
  pose proof (split_not_nil space rest).
  now destruct (split space rest).
Qed.

(** X15. [authenticateToken] answers 401 without asking [jwt.verify] when
    the Authorization header is missing, when it holds no space (the empty
    header and a bare token among them), and when nothing stands between the
    first space and the end or a second space. *)
Theorem authenticateToken_rejects {P : Type} (verify : string -> option P)
    (header rest : string) :
  countChar space header = 0 ->
  let refused : FunctionsAuth.passage P :=
    FunctionsAuth.Answer (FunctionsAuth.Status 401 "Access token required") in
  FunctionsAuth.authenticateToken verify None = refused
  /\ FunctionsAuth.authenticateToken verify (Some header) = refused
  /\ FunctionsAuth.authenticateToken verify (Some (header ++ " ")%string) = refused
  /\ FunctionsAuth.authenticateToken verify (Some (header ++ "  " ++ rest)%string)
     = refused.
Proof.
  intros Hh refused. unfold FunctionsAuth.authenticateToken.
  split; [reflexivity|split; [|split]].
  - unfold FunctionsAuth.tokenOf. fold space.
    rewrite (split_without space header Hh).
    destruct header; reflexivity.
  - change (header ++ " ")%string with (header ++ String space EmptyString)%string.
    now rewrite (tokenOf_second header EmptyString Hh).
  - change (header ++ "  " ++ rest)%string
      with (header ++ String space (EmptyString ++ String space rest))%string.
    rewrite (tokenOf_second header _ Hh), split_app. reflexivity.
Qed.

Lemma authenticateToken_rejects_witness :
  FunctionsAuth.authenticateToken (fun t => Some t) (Some "abc.def.ghi")
  = FunctionsAuth.Answer (FunctionsAuth.Status 401 "Access token required").
Proof.
  exact (proj1 (proj2
    (authenticateToken_rejects (fun t => Some t) "abc.def.ghi" EmptyString eq_refl))).
Defined.

(** X16. The token is the text between the first space of the header and
    the end or the next space; the word before the first space is never
    looked at, be it Bearer or not, and what follows a second space is
    ignored.  The request passes with the payload [jwt.verify] gives for
    that token and is answered 403 when it gives none. *)
Theorem authenticateToken_second_piece {P : Type} (verify : string -> option P)
    (scheme token rest : string) :
  countChar space scheme = 0 ->
  countChar space token = 0 ->
  truthy token = true ->
  let verdict : FunctionsAuth.passage P :=
    match verify token with
    | Some payload => FunctionsAuth.Next payload
    | None => FunctionsAuth.Answer (FunctionsAuth.Status 403 "Invalid token")
    end in
  FunctionsAuth.authenticateToken verify (Some (scheme ++ " " ++ token)%string)
  = verdict
  /\ FunctionsAuth.authenticateToken verify
       (Some (scheme ++ " " ++ token ++ " " ++ rest)%string)
     = verdict.
Proof.
  intros Hs Ht Htruthy verdict. unfold FunctionsAuth.authenticateToken.
  change (scheme ++ " " ++ token)%string
    with (scheme ++ String space token)%string.
  change (scheme ++ " " ++ token ++ " " ++ rest)%string
    with (scheme ++ String space (token ++ String space rest))%string.
  rewrite !(tokenOf_second scheme _ Hs).
  rewrite (split_two space token rest Ht), (split_without space token Ht).
  cbn [hd]. destruct token as [|c token]; [discriminate|]. split; reflexivity.
Qed.

Lemma authenticateToken_second_piece_witness :
  FunctionsAuth.authenticateToken
    (fun t => if String.eqb t "abc" then Some "alice" else None)
    (Some "Basic abc trailing")
  = FunctionsAuth.Next "alice".
Proof.
  exact (proj2
    (authenticateToken_second_piece
       (fun t => if String.eqb t "abc" then Some "alice" else None)
       "Basic" "abc" "trailing" eq_refl eq_refl eq_refl)).
Defined.

(** X17. A request passes the middleware only with the payload that
    [jwt.verify] gave for the second of the pieces the header falls into at
    its spaces. *)
Theorem authenticateToken_sound {P : Type} (verify : string -> option P)
    (authHeader : option string) (payload : P) :
  FunctionsAuth.authenticateToken verify authHeader = FunctionsAuth.Next payload ->
  exists header token,
    authHeader = Some header
    /\ nth_error (split space header) 1 = Some token
    /\ truthy token = true
    /\ verify token = Some payload.
Proof.
  unfold FunctionsAuth.authenticateToken, FunctionsAuth.tokenOf. fold space.
  destruct authHeader as [header|]; [|discriminate].
  destruct (truthy header) eqn:Hh.
  - destruct (nth_error (split space header) 1) as [token|] eqn:Htok; [|discriminate].
    unfold falsy. destruct (truthy token) eqn:Ht; [|discriminate]. simpl.
    destruct (verify token) as [u|] eqn:Hv; [|discriminate].
    intros [= <-]. now exists header, token.
  - unfold falsy. now rewrite Hh.
Qed.

Lemma authenticateToken_sound_witness :
  exists header token,
    Some "Bearer abc" = Some header
    /\ nth_error (split space header) 1 = Some token
    /\ truthy token = true
    /\ (fun t => if String.eqb t "abc" then Some 7 else None) token = Some 7.
Proof.
  exact (authenticateToken_sound
           (fun t => if String.eqb t "abc" then Some 7 else None)
           (Some "Bearer abc") 7 eq_refl).
Defined.

(** *** Registration and login *)

Lemma findByEmail_none (users : list FunctionsAuth.user) (e : string) :
  FunctionsAuth.findByEmail users e = None <-> ~ In e (emails users).
Proof.
  unfold FunctionsAuth.findByEmail, emails.
  induction users as [|u users IH]; simpl; [tauto|].
  destruct (String.eqb_spec (FunctionsAuth.email u) e) as [Heq|Hne].
  - split; [discriminate|]. intro H. exfalso. apply H. now left.
  - rewrite IH. tauto.
Qed.

Lemma findByEmail_last (users : list FunctionsAuth.user) (u : FunctionsAuth.user) :
  FunctionsAuth.findByEmail users (FunctionsAuth.email u) = None ->
  FunctionsAuth.findByEmail (users ++ [u]) (FunctionsAuth.email u) = Some u.
Proof.
  unfold FunctionsAuth.findByEmail.
  induction users as [|v users IH]; simpl.
  - now rewrite String.eqb_refl.
  - destruct (String.eqb (FunctionsAuth.email v) (FunctionsAuth.email u));
      [discriminate|exact IH].
Qed.

Lemma findByEmail_first (users more : list FunctionsAuth.user)
    (u : FunctionsAuth.user) (e : string) :
  FunctionsAuth.findByEmail users e = Some u ->
  FunctionsAuth.findByEmail (users ++ more) e = Some u.
Proof.
  unfold FunctionsAuth.findByEmail.
  induction users as [|v users IH]; simpl; [discriminate|].
  destruct (String.eqb (FunctionsAuth.email v) e); [easy|exact IH].
Qed.

(** What a check that lets the request go on has established. *)
Lemma registerCheck_passes (name email password : option string)
    (users : list FunctionsAuth.user) (n e p : string) :
  FunctionsAuth.registerCheck name email password users = inr (n, e, p) ->
  name = Some n /\ email = Some e /\ password = Some p
  /\ truthy n = true /\ truthy e = true /\ 6 <= stringLength p
  /\ FunctionsAuth.findByEmail users e = None.
Proof.
  unfold FunctionsAuth.registerCheck, falsy.
  destruct name as [n'|], email as [e'|], password as [p'|]; simpl;
    try (destruct (truthy n'); discriminate);
    try (destruct (truthy n'), (truthy e'); discriminate);
    try discriminate.
  destruct (truthy n') eqn:Hn, (truthy e') eqn:He, (truthy p') eqn:Hp; simpl;
    try discriminate.
  destruct (Nat.ltb_spec (stringLength p') 6); [discriminate|].
  destruct (FunctionsAuth.findByEmail users e') eqn:Hfind; [discriminate|].
  intros [= <- <- <-]. repeat split; assumption.
Qed.

Lemma registerCheck_refuses (name email password : option string)
    (users : list FunctionsAuth.user) (answer : FunctionsAuth.response) :
  FunctionsAuth.registerCheck name email password users = inl answer ->
  exists error, answer = FunctionsAuth.Status 400 error.
Proof.
  unfold FunctionsAuth.registerCheck.
  destruct (_ || _); [intros [= <-]; eauto|].
  destruct name, email, password; try (intros [= <-]; eauto).
  destruct (_ <? _); [intros [= <-]; eauto|].
  destruct (FunctionsAuth.findByEmail _ _); [intros [= <-]; eauto|discriminate].
Qed.

(** X18. Registrations handled one after the other keep the e-mail
    addresses of [users] distinct: a request is answered 400 or 500 and
    leaves the array as it is, or it is answered with the success message
    and appends one user, whose address was not there, with the hash for
    password. *)
Theorem register_keeps_emails_distinct (hash : string -> option string) (now : string)
    (name email password : option string) (users : list FunctionsAuth.user) :
  NoDup (emails users) ->
  let result := FunctionsAuth.register hash now name email password users in
  NoDup (emails (snd result))
  /\ ((exists code error,
          fst result = FunctionsAuth.Status code error /\ snd result = users)
      \/ (exists n e p h,
             name = Some n /\ email = Some e /\ password = Some p /\ hash p = Some h
             /\ ~ In e (emails users)
             /\ fst result = FunctionsAuth.Message "User registered successfully"
             /\ snd result = users ++ [FunctionsAuth.mkUser now n e h])).
Proof.
  intros Hnodup result. subst result. unfold FunctionsAuth.register.
  destruct (FunctionsAuth.registerCheck name email password users)
    as [answer|[[n e] p]] eqn:Hcheck.
  - destruct (registerCheck_refuses _ _ _ _ _ Hcheck) as [error ->].
    split; [exact Hnodup|]. left. now exists 400, error.
  - destruct (registerCheck_passes _ _ _ _ _ _ _ Hcheck)
      as (-> & -> & -> & _ & _ & _ & Hfind).
    apply findByEmail_none in Hfind.
    unfold FunctionsAuth.registerCommit. destruct (hash p) as [h|] eqn:Hhash.
    + cbn [fst snd]. split.
      * unfold emails in *. rewrite map_app. cbn [map FunctionsAuth.email].
        apply NoDup_app; [exact Hnodup|repeat constructor; easy|].
        intros x Hx [<-|[]]. contradiction.
      * right. exists n, e, p, h. repeat split; auto.
    + cbn [fst snd]. split; [exact Hnodup|].
      left. now exists 500, "Registration failed".
Qed.

Lemma register_keeps_emails_distinct_witness :
  NoDup (emails (snd (FunctionsAuth.register (fun p => Some ("#" ++ p)%string) "17"
                        (Some "Ann") (Some "ann@x.org") (Some "secret1") []))).
Proof.
  exact (proj1 (register_keeps_emails_distinct (fun p => Some ("#" ++ p)%string) "17"
                  (Some "Ann") (Some "ann@x.org") (Some "secret1") []
                  (NoDup_nil string))).
Defined.



(** X20. An address that is registered cannot be registered again, when the
    requests are handled one after the other: whatever the name and the
    password, the answer is a 400 and [users] stays as it is. *)
Theorem register_again_refused (hash : string -> option string) (now : string)
    (name password : option string) (e : string) (users : list FunctionsAuth.user) :
  In e (emails users) ->
  exists error,
    FunctionsAuth.register hash now name (Some e) password users
    = (FunctionsAuth.Status 400 error, users).
Proof.
  intro Hin. unfold FunctionsAuth.register.
  destruct (FunctionsAuth.registerCheck name (Some e) password users)
    as [answer|[[n e'] p]] eqn:Hcheck.
  - destruct (registerCheck_refuses _ _ _ _ _ Hcheck) as [error ->]. now exists error.
  - destruct (registerCheck_passes _ _ _ _ _ _ _ Hcheck)
      as (_ & He & _ & _ & _ & _ & Hfind).
    injection He as <-. apply findByEmail_none in Hfind. contradiction.
Qed.

Lemma register_again_refused_witness :
  exists error,
    FunctionsAuth.register (fun p => Some p) "18" (Some "Bob") (Some "ann@x.org")
      (Some "another1") [FunctionsAuth.mkUser "17" "Ann" "ann@x.org" "#secret1"]
    = (FunctionsAuth.Status 400 error,
       [FunctionsAuth.mkUser "17" "Ann" "ann@x.org" "#secret1"]).
Proof.
  apply (register_again_refused (fun p => Some p) "18" (Some "Bob") (Some "another1")
           "ann@x.org" [FunctionsAuth.mkUser "17" "Ann" "ann@x.org" "#secret1"]).
  simpl. auto.
Defined.

(** X21. Between the check of the address and the push stands an [await].
    Two registrations of one address whose checks both run before either
    push are both answered with the success message and leave two users
    with that address; a login then meets the first of them only, so the
    password of the second is checked against the hash of the first. *)
Theorem register_interleaved (users : list FunctionsAuth.user)
    (name1 email1 password1 name2 email2 password2 : option string)
    (n1 n2 e p1 p2 h1 h2 now1 now2 : string)
    (compare : string -> string -> option bool)
    (sign : string -> string -> string -> string) :
  FunctionsAuth.registerCheck name1 email1 password1 users = inr (n1, e, p1) ->
  FunctionsAuth.registerCheck name2 email2 password2 users = inr (n2, e, p2) ->
  let first := FunctionsAuth.registerCommit (n1, e, p1) (Some h1) now1 users in
  let second := FunctionsAuth.registerCommit (n2, e, p2) (Some h2) now2 (snd first) in
  fst first = FunctionsAuth.Message "User registered successfully"
  /\ fst second = FunctionsAuth.Message "User registered successfully"
  /\ snd second
     = users ++ [FunctionsAuth.mkUser now1 n1 e h1; FunctionsAuth.mkUser now2 n2 e h2]
  /\ ~ NoDup (emails (snd second))
  /\ FunctionsAuth.login compare sign email2 password2 (snd second)
     = match compare p2 h1 with
       | Some true => FunctionsAuth.Session (sign now1 n1 e) now1 n1 e
       | Some false => FunctionsAuth.Status 401 "Invalid credentials"
       | None => FunctionsAuth.Status 500 "Login failed"
       end.
Proof.
  intros Hc1 Hc2 first second.
  destruct (registerCheck_passes _ _ _ _ _ _ _ Hc1)
    as (-> & -> & -> & _ & _ & _ & Hfind).
  destruct (registerCheck_passes _ _ _ _ _ _ _ Hc2)
    as (-> & -> & -> & _ & He & Hp & _).
  assert (Husers : snd second
                   = users ++ [FunctionsAuth.mkUser now1 n1 e h1;
                               FunctionsAuth.mkUser now2 n2 e h2]).
  { subst second first. cbn [FunctionsAuth.registerCommit snd].
    now rewrite <- app_assoc. }
  split; [reflexivity|split; [reflexivity|split; [exact Husers|split]]].
  - rewrite Husers. unfold emails. rewrite map_app.
    cbn [map FunctionsAuth.email]. intro Hnodup.
    apply NoDup_remove_2 in Hnodup. apply Hnodup.
    apply in_or_app. right. now left.
  - rewrite Husers. unfold FunctionsAuth.login, falsy. rewrite He.
    assert (Htp : truthy p2 = true) by (destruct p2; [simpl in Hp; lia|reflexivity]).
    rewrite Htp. cbn [negb orb].
    pose proof (findByEmail_last users (FunctionsAuth.mkUser now1 n1 e h1) Hfind) as Hl.
    cbn [FunctionsAuth.email] in Hl.
    change (users ++ [FunctionsAuth.mkUser now1 n1 e h1; FunctionsAuth.mkUser now2 n2 e h2])
      with (users ++ [FunctionsAuth.mkUser now1 n1 e h1]
                  ++ [FunctionsAuth.mkUser now2 n2 e h2]).
    rewrite app_assoc, (findByEmail_first _ _ _ _ Hl).
    cbn [FunctionsAuth.password FunctionsAuth.id FunctionsAuth.name FunctionsAuth.email].
    destruct (compare p2 h1) as [[|]|]; reflexivity.
Qed.

Lemma register_interleaved_witness :
  ~ NoDup (emails
             (snd (FunctionsAuth.registerCommit ("Bob", "ann@x.org", "another1")
                     (Some "#another1") "18"
                     (snd (FunctionsAuth.registerCommit ("Ann", "ann@x.org", "secret1")
                             (Some "#secret1") "17" []))))).
Proof.
  exact (proj1 (proj2 (proj2 (proj2
    (register_interleaved [] (Some "Ann") (Some "ann@x.org") (Some "secret1")
       (Some "Bob") (Some "ann@x.org") (Some "another1")
       "Ann" "Bob" "ann@x.org" "secret1" "another1" "#secret1" "#another1" "17" "18"
       (fun _ _ => Some false) (fun i _ _ => i) eq_refl eq_refl))))).
Defined.

(** X22. A login opens a session only for a registered user: the first of
    [users] with the address of the request, whose stored hash
    [bcrypt.compare] accepted for the password of the request; the session
    carries the id, the name and the address of that user. *)
Theorem login_sound (compare : string -> string -> option bool)
    (sign : string -> string -> string -> string)
    (email password : option string) (users : list FunctionsAuth.user)
    (token i n e : string) :
  FunctionsAuth.login compare sign email password users
  = FunctionsAuth.Session token i n e ->
  exists u p,
    email = Some e /\ password = Some p
    /\ FunctionsAuth.findByEmail users e = Some u
    /\ In u users
    /\ compare p (FunctionsAuth.password u) = Some true
    /\ u = FunctionsAuth.mkUser i n e (FunctionsAuth.password u)
    /\ token = sign i n e.
Proof.
  unfold FunctionsAuth.login.
  destruct (_ || _); [discriminate|].
  destruct email as [e'|], password as [p|]; try discriminate.
  destruct (FunctionsAuth.findByEmail users e') as [u|] eqn:Hfind; [|discriminate].
  destruct (compare p (FunctionsAuth.password u)) as [[|]|] eqn:Hcmp; try discriminate.
  intros [= <- <- <- He]. exists u, p.
  pose proof Hfind as Hf. unfold FunctionsAuth.findByEmail in Hf.
  apply find_some in Hf. destruct Hf as [Hin Heq]. apply String.eqb_eq in Heq.
  rewrite He in *. subst e'.
  repeat split; try assumption; try reflexivity.
  destruct u; simpl in *. congruence.
Qed.

Lemma login_sound_witness :
  exists u p,
    Some "ann@x.org" = Some "ann@x.org" /\ Some "secret1" = Some p
    /\ FunctionsAuth.findByEmail
         [FunctionsAuth.mkUser "17" "Ann" "ann@x.org" "#secret1"] "ann@x.org" = Some u
    /\ In u [FunctionsAuth.mkUser "17" "Ann" "ann@x.org" "#secret1"]
    /\ (fun p h => Some (String.eqb h ("#" ++ p))) p (FunctionsAuth.password u) = Some true
    /\ u = FunctionsAuth.mkUser "17" "Ann" "ann@x.org" (FunctionsAuth.password u)
    /\ "17" = (fun i _ _ : string => i) "17" "Ann" "ann@x.org".
Proof.
  exact (login_sound (fun p h => Some (String.eqb h ("#" ++ p))) (fun i _ _ => i)
           (Some "ann@x.org") (Some "secret1")
           [FunctionsAuth.mkUser "17" "Ann" "ann@x.org" "#secret1"]
           "17" "17" "Ann" "ann@x.org" eq_refl).
Defined.

(** *** The columns behind the profiles *)

Lemma mapi_from_profile_indices (dataLines headers : list string) :
  forall i, map index (mapi_from i (profile dataLines) headers) = seq i (length headers).
Proof.
  induction headers as [|header rest IH]; intro i; simpl; [reflexivity|].
  now rewrite IH.
Qed.

Lemma profiled_from_column (dataLines headers : list string) (p : channel) :
  forall i, In p (profiled_from dataLines i headers) ->
            exists header,
              nth_error headers (index p - i) = Some header
              /\ i <= index p
              /\ p = profile dataLines header (index p).
Proof.
  unfold profiled_from.
  induction headers as [|header rest IH]; intros i Hin; [easy|].
  cbn [mapi_from concat] in Hin. apply in_app_or in Hin.
  destruct Hin as [Hin|Hin].
  - destruct (isTimeColumn header i); [easy|].
    destruct Hin as [<-|[]]. exists header. cbn [index profile].
    rewrite Nat.sub_diag. now repeat split.
  - destruct (IH (S i) Hin) as (h & Hnth & Hle & Hp).
    exists h. replace (index p - i) with (S (index p - S i)) by lia.
    now repeat split; [exact Hnth|lia|exact Hp].
Qed.

(** X23. The index of a profile is the position of its column in the
    header, so the indices run upwards without a gap, from 1 when the time
    column is left out and from 0 otherwise, and there is one profile for
    every other column. *)
Theorem analyzeChannels_indices (header : string) (rest dataLines : list string) :
  let headers := header :: rest in
  let timeLike :=
    includes (toLowerCase header) "time" || includes (toLowerCase header) "sample" in
  map index (analyzeChannels headers dataLines)
  = (if timeLike then seq 1 (length rest) else seq 0 (S (length rest)))
  /\ length (analyzeChannels headers dataLines)
     = (if timeLike then length rest else S (length rest))
  /\ (forall p, In p (analyzeChannels headers dataLines) ->
                exists h, nth_error headers (index p) = Some h
                          /\ p = profile dataLines h (index p)).
Proof.
  intros headers timeLike.
  assert (Heq : analyzeChannels headers dataLines
                = (if timeLike then [] else [profile dataLines header 0])
                  ++ mapi_from 1 (profile dataLines) rest).
  { subst headers. rewrite analyzeChannels_profiled. unfold profiled_from.
    cbn [mapi_from concat]. fold (profiled_from dataLines 1 rest).
    rewrite profiled_from_succ. unfold isTimeColumn.
    cbn [Nat.eqb andb]. fold timeLike. now destruct timeLike. }
  split; [|split].
  - rewrite Heq, map_app, mapi_from_profile_indices. now destruct timeLike.
  - rewrite Heq, length_app, mapi_from_length. now destruct timeLike.
  - intros p Hin. rewrite analyzeChannels_profiled in Hin.
    destruct (profiled_from_column _ _ _ 0 Hin) as (h & Hnth & _ & Hp).
    exists h. rewrite Nat.sub_0_r in Hnth. now split.
Qed.

(** *** The names of the channels *)

Lemma countChar_removeQuotes (q : ascii) (s : string) :
  isQuote q = true -> countChar q (removeQuotes s) = 0.
Proof.
  intro Hq. induction s as [|c s IH]; [reflexivity|].
  simpl. destruct (isQuote c) eqn:Hc; [exact IH|].
  simpl. destruct (Ascii.eqb_spec c q) as [->|_]; [congruence|exact IH].
Qed.

Lemma countChar_append (q : ascii) (a b : string) :
  countChar q (a ++ b) = countChar q a + countChar q b.
Proof.
  induction a as [|x a IH]; simpl; [reflexivity|]. rewrite IH. lia.
Qed.

(** What [trimStart] leaves is the end of the text. *)
Lemma trimStart_suffix :
  forall s, exists pre, s = (pre ++ trimStart s)%string.
Proof.
  apply (string_length_ind (fun s => exists pre, s = (pre ++ trimStart s)%string)).
  intros s IH. rewrite trimStart_unfold.
  destruct (afterWhiteSpace s) as [r|] eqn:Hr; [|now exists EmptyString].
  destruct (IH r (afterWhiteSpace_shorter _ _ Hr)) as [pre Hpre].
  destruct (afterWhiteSpace_cases _ _ Hr)
    as [(a & -> & _)|[(a & b & -> & _)|(a & b & c & -> & _)]].
  - exists (String a pre). simpl. now rewrite <- Hpre.
  - exists (String a (String b pre)). simpl. now rewrite <- Hpre.
  - exists (String a (String b (String c pre))). simpl. now rewrite <- Hpre.
Qed.

(** What [trimEnd] leaves is the beginning of the text, and white space
    follows it. *)
Lemma trimEnd_prefix (s : string) :
  exists w, s = (trimEnd s ++ w)%string /\ allWhiteSpace w = true.
Proof.
  induction s as [|c s IH].
  - now exists EmptyString.
  - cbn [trimEnd]. destruct (allWhiteSpace (String c s)) eqn:Hall.
    + now exists (String c s).
    + destruct IH as (w & Hw & Hall'). exists w. split; [|exact Hall'].
      simpl. now rewrite <- Hw.
Qed.

Lemma countChar_trimStart (q : ascii) (s : string) :
  countChar q (trimStart s) <= countChar q s.
Proof.
  destruct (trimStart_suffix s) as [pre Hpre].
  rewrite Hpre at 2. rewrite countChar_append. lia.
Qed.

Lemma countChar_trimEnd (q : ascii) (s : string) :
  countChar q (trimEnd s) <= countChar q s.
Proof.
  destruct (trimEnd_prefix s) as (w & Hw & _).
  rewrite Hw at 2. rewrite countChar_append. lia.
Qed.

(** A text that begins with a white space character still does when more
    text follows. *)
Lemma afterWhiteSpace_append (x r w : string) :
  afterWhiteSpace x = Some r -> afterWhiteSpace (x ++ w) = Some (r ++ w)%string.
Proof.
  intro H. destruct (afterWhiteSpace_cases _ _ H)
    as [(a & -> & H1)|[(a & b & -> & H1 & H2)|(a & b & c & -> & H1 & H2 & H3)]];
    simpl; now rewrite ?H1, ?H2, ?H3.
Qed.

Lemma allWhiteSpace_append :
  forall x w, allWhiteSpace x = true -> allWhiteSpace (x ++ w) = allWhiteSpace w.
Proof.
  intros x w. revert x.
  apply (string_length_ind
           (fun x => allWhiteSpace x = true -> allWhiteSpace (x ++ w) = allWhiteSpace w)).
  intros x IH. rewrite (allWhiteSpace_unfold x).
  destruct x as [|a x1]; [reflexivity|].
  destruct (afterWhiteSpace (String a x1)) as [r|] eqn:Hr; [|discriminate].
  intro Hall.
  change (String a x1 ++ w)%string with (String a (x1 ++ w)).
  rewrite (allWhiteSpace_unfold (String a (x1 ++ w))). cbv iota.
  change (String a (x1 ++ w)) with (String a x1 ++ w)%string.
  rewrite (afterWhiteSpace_append _ _ w Hr).
  apply IH; [now apply afterWhiteSpace_shorter|exact Hall].
Qed.

Lemma trimEnd_again (s : string) : trimEnd (trimEnd s) = trimEnd s.
Proof.
  induction s as [|c s IH]; [reflexivity|].
  cbn [trimEnd]. destruct (allWhiteSpace (String c s)) eqn:Hall; [reflexivity|].
  cbn [trimEnd]. rewrite IH.
  destruct (allWhiteSpace (String c (trimEnd s))) eqn:Hall'; [|reflexivity].
  destruct (trimEnd_prefix s) as (w & Hw & Hww).
  pose proof (allWhiteSpace_append (String c (trimEnd s)) w Hall') as Happ.
  simpl append in Happ. rewrite <- Hw, Hww in Happ. congruence.
Qed.

Lemma trimStart_again :
  forall s, trimStart (trimStart s) = trimStart s.
Proof.
  apply (string_length_ind (fun s => trimStart (trimStart s) = trimStart s)).
  intros s IH. rewrite (trimStart_unfold s).
  destruct (afterWhiteSpace s) as [r|] eqn:Hr.
  - apply IH. now apply afterWhiteSpace_shorter.
  - now rewrite trimStart_unfold, Hr.
Qed.

Lemma trimStart_length :
  forall s, String.length (trimStart s) <= String.length s.
Proof.
  apply (string_length_ind
           (fun s => String.length (trimStart s) <= String.length s)).
  intros s IH. rewrite trimStart_unfold.
  destruct (afterWhiteSpace s) as [r|] eqn:Hr; [|lia].
  pose proof (afterWhiteSpace_shorter _ _ Hr).
  pose proof (IH r ltac:(assumption)). lia.
Qed.

(** What [trimEnd] leaves of a text without white space at its beginning
    has none there either. *)
Lemma trimStart_trimEnd (s : string) :
  trimStart s = s -> trimStart (trimEnd s) = trimEnd s.
Proof.
  intro Hfix.
  assert (Hnone : afterWhiteSpace s = None).
  { destruct (afterWhiteSpace s) as [r|] eqn:Hr; [|reflexivity]. exfalso.
    rewrite trimStart_unfold, Hr in Hfix.
    pose proof (afterWhiteSpace_shorter _ _ Hr).
    pose proof (trimStart_length r). rewrite Hfix in *. lia. }
  destruct (trimEnd_prefix s) as (w & Hw & _).
  rewrite trimStart_unfold.
  destruct (afterWhiteSpace (trimEnd s)) as [r|] eqn:Hr; [|reflexivity].
  apply (afterWhiteSpace_append _ _ w) in Hr. rewrite <- Hw in Hr. congruence.
Qed.

Lemma trim_again (s : string) : trim (trim s) = trim s.
Proof.
  unfold trim.
  rewrite (trimStart_trimEnd (trimStart s) (trimStart_again s)).
  apply trimEnd_again.
Qed.

(** X24. The name of a channel, the one the report prints, holds neither a
    double nor a single quote and neither begins nor ends with a white
    space character, of ASCII or beyond: trimming it again changes
    nothing. *)
Theorem channel_names_clean (headers dataLines : list string) (p : channel) :
  In p (analyzeChannels headers dataLines) ->
  countChar (ascii_of_nat 34) (name p) = 0
  /\ countChar (ascii_of_nat 39) (name p) = 0
  /\ trim (name p) = name p.
Proof.
  intro Hin. destruct (analyzeChannels_In _ _ _ Hin) as (header & i & ->).
  cbn [name profile].
  assert (Hq : forall q, isQuote q = true ->
                         countChar q (trim (removeQuotes header)) = 0).
  { intros q Hq. unfold trim.
    pose proof (countChar_trimEnd q (trimStart (removeQuotes header))).
    pose proof (countChar_trimStart q (removeQuotes header)).
    pose proof (countChar_removeQuotes q header Hq). lia. }
  split; [now apply Hq|split; [now apply Hq|apply trim_again]].
Qed.

Lemma channel_names_clean_witness :
  name (profile raggedCapture (BOM ++ " 'A' " ++ NBSP) 1) = "A"
  /\ trim (name (profile raggedCapture (BOM ++ " 'A' " ++ NBSP) 1))
     = name (profile raggedCapture (BOM ++ " 'A' " ++ NBSP) 1).
Proof.
  split; [reflexivity|].
  apply (channel_names_clean ["Time"; (BOM ++ " 'A' " ++ NBSP)%string] raggedCapture).
  simpl. auto.
Defined.

(** *** The report of [src/functions/server.js] *)

Lemma functions_report_of_lines (text text' : string) :
  nonBlankLines text = nonBlankLines text' ->
  FunctionsUpload.getEnhancedMockAnalysis text
  = FunctionsUpload.getEnhancedMockAnalysis text'.
Proof.
  unfold FunctionsUpload.getEnhancedMockAnalysis, nonBlankLines.
  intro H. now rewrite H.
Qed.

(** X25. The report of [src/functions/server.js] does not change when a
    line of white space alone is put into the upload, between two parts of
    it, before it or after it. *)
Theorem functions_report_blank_lines (before after blank : string) :
  trim blank = EmptyString ->
  let nl := String LF EmptyString in
  FunctionsUpload.getEnhancedMockAnalysis (before ++ nl ++ blank ++ nl ++ after)
  = FunctionsUpload.getEnhancedMockAnalysis (before ++ nl ++ after)
  /\ FunctionsUpload.getEnhancedMockAnalysis (blank ++ nl ++ after)
     = FunctionsUpload.getEnhancedMockAnalysis after
  /\ FunctionsUpload.getEnhancedMockAnalysis (before ++ nl ++ blank)
     = FunctionsUpload.getEnhancedMockAnalysis before.
Proof.
  intros Hblank nl. subst nl.
  pose proof (nonBlankLines_blank blank Hblank) as Hnone.
  repeat split; apply functions_report_of_lines; cbn [append];
    rewrite !nonBlankLines_app, Hnone, ?app_nil_r; reflexivity.
Qed.

Lemma functions_report_blank_lines_witness :
  FunctionsUpload.getEnhancedMockAnalysis
    ("Time,A" ++ String LF EmptyString ++ "   " ++ String LF EmptyString ++ "0,1")
  = FunctionsUpload.getEnhancedMockAnalysis ("Time,A" ++ String LF EmptyString ++ "0,1")
  /\ FunctionsUpload.getEnhancedMockAnalysis
       ("Time,A" ++ String LF EmptyString ++ NBSP ++ String LF EmptyString ++ "0,1")
     = FunctionsUpload.getEnhancedMockAnalysis
         ("Time,A" ++ String LF EmptyString ++ "0,1").
Proof.
  split.
  - exact (proj1 (functions_report_blank_lines "Time,A" "0,1" "   " eq_refl)).
  - exact (proj1 (functions_report_blank_lines "Time,A" "0,1" NBSP eq_refl)).
Defined.

(** X26. [detectProtocol] of [src/functions/server.js] has three answers
    and no other: I2C exactly when the I2C block applies, SPI exactly when
    the SPI block applies, and UART/Serial with confidence Medium for every
    other capture, the one without any channel among them. *)
Theorem functions_detectProtocol_answers (channels : list channel) :
  let d := filter isDigital channels in
  let g := FunctionsServer.detectProtocol channels in
  (g = guessI2C \/ g = guessSPI \/ g = guessUART)
  /\ (g = guessI2C <-> i2cShape d = true)
  /\ (g = guessSPI <-> spiShape d = true)
  /\ (g = guessUART <-> i2cShape d = false /\ spiShape d = false).
Proof.
  intros d g. subst g.
  unfold FunctionsServer.detectProtocol, i2cShape, spiShape. fold d.
  set (n := length d).
  set (hasClock := existsb isClock d).
  set (hasData := existsb (fun c => isData c && negb (isClock c)) d).
  set (clockLike := length (filter isClock d)).
  set (dataLike := length (filter isData d)).
  destruct (Nat.eqb_spec n 2) as [H2|H2], (Nat.leb_spec 3 n) as [H3|H3],
    (Nat.leb_spec n 5) as [H5|H5]; try lia;
    destruct hasClock, hasData, (1 <=? clockLike), (2 <=? dataLike);
    cbv [andb]; unfold guessI2C, guessSPI, guessUART;
    repeat split; intros; try discriminate; try reflexivity; auto;
    try (intuition discriminate).
Qed.
